(** * seller-apis: the reconciliation engine of [seller.py] and [market.py]

    A shallow embedding of the pure core of the two synchronisation
    scripts (quantity and price normalisation, [divide], [create_stocks],
    [create_prices]) and of the upload drivers built on it, with the
    properties stated for them.

    Conventions of the embedding.
    - A Python [str] is a [string] holding its UTF-8 bytes.  Every
      character the code inspects (['.'], the digits, the sign, ['_'],
      ASCII white space) is a single byte below 128 that never occurs
      inside a multi-byte sequence, so byte-wise and character-wise
      processing agree.  Decimal digits and white space outside ASCII,
      which [int()] also accepts, are not modelled: what is stated of
      the failures of [int()] is stated of ASCII text.
    - A raised exception is the [Raise] branch of [result].
    - The list [offer_ids] is a mutable object shared with the caller:
      every function that mutates it returns its final contents next to
      its own result, also when it raises.
    - The HTTP layer is a parameter: the outcome of each request is given
      by an oracle, and the requests issued are recorded in order.
    - A loop that may run for ever ([get_offer_ids]) takes the number of
      requests it may issue and gives [None] when it is still running
      after them. *)

From Stdlib Require Import List String Ascii ZArith Lia Bool Arith Permutation.
From Stdlib Require DecimalString DecimalPos DecimalZ.
Import ListNotations.
Local Open Scope string_scope.
Local Open Scope list_scope.
Local Open Scope Z_scope.

(** ** Exceptions and results *)

Inductive exn : Type :=
| ValueError        (* int() on a bad literal, range() with step 0, list.remove *)
| ReadTimeout       (* requests.exceptions.ReadTimeout *)
| ConnectionError   (* requests.exceptions.ConnectionError *)
| HTTPError.        (* response.raise_for_status() *)

Inductive result (A : Type) : Type :=
| Ok (a : A)
| Raise (e : exn).
Arguments Ok {A} a.
Arguments Raise {A} e.

Definition bind {A B} (r : result A) (k : A -> result B) : result B :=
  match r with
  | Ok a => k a
  | Raise e => Raise e
  end.

Notation "x <- c ;; k" := (bind c (fun x => k))
  (at level 61, c at next level, right associativity).

(** ** Python values found in a feed cell *)

(** [pandas.read_excel(...).to_dict(orient="records")] gives every record
    the same keys; a cell of the columns "Код" and "Количество" is a [str]
    or an [int] (the code passes both through [str()]), a cell of "Цена"
    is a [str] (the annotation of [price_conversion]). *)
Inductive pyval : Type :=
| PyStr (s : string)
| PyInt (z : Z).

(** One record of [watch_remnants]; the fields stand for the keys
    "Код", "Количество" and "Цена". *)
Record watch : Type := Watch {
  Kod : pyval;
  Kolichestvo : pyval;
  Tsena : string
}.

(** [str(v)] *)
Definition str (v : pyval) : string :=
  match v with
  | PyStr s => s
  | PyInt z => DecimalString.NilZero.string_of_int (Z.to_int z)
  end.

(** *** [int(s)] on a string, base 10 *)

Definition is_digit (c : ascii) : bool :=
  let n := nat_of_ascii c in ((48 <=? n) && (n <=? 57))%nat.

Definition digit_value (c : ascii) : Z := Z.of_nat (nat_of_ascii c) - 48.

(** The white space that [int()] skips around a literal: tab, line feed,
    vertical tab, form feed, carriage return and the blank. *)
Definition is_space (c : ascii) : bool :=
  let n := nat_of_ascii c in
  (((9 <=? n) && (n <=? 13)) || (n =? 32))%nat.

Fixpoint lstrip (s : string) : string :=
  match s with
  | String c r => if is_space c then lstrip r else s
  | EmptyString => EmptyString
  end.

Fixpoint rstrip (s : string) : string :=
  match s with
  | String c r =>
      match rstrip r with
      | EmptyString => if is_space c then EmptyString else String c EmptyString
      | r' => String c r'
      end
  | EmptyString => EmptyString
  end.

Definition strip (s : string) : string := rstrip (lstrip s).

(** Digits with single underscores between them; [after_digit] tells
    whether the previous character was a digit. *)
Fixpoint int_digits (acc : Z) (after_digit : bool) (s : string) : option Z :=
  match s with
  | EmptyString => if after_digit then Some acc else None
  | String c r =>
      if Ascii.eqb c "_" then
        if after_digit then int_digits acc false r else None
      else if is_digit c then int_digits (10 * acc + digit_value c) true r
      else None
  end.

(** The default of [sys.get_int_max_str_digits()] (CPython 3.11 and
    later): [int()] refuses a text with more digits than this. *)
Definition int_max_str_digits : nat := 4300%nat.

(** The digits of a text: the sign and the underscores do not count,
    leading zeros do. *)
Fixpoint digit_count (s : string) : nat :=
  match s with
  | EmptyString => 0%nat
  | String c r => if is_digit c then S (digit_count r) else digit_count r
  end.

(** The sign in front of the digits, if any, and what follows it. *)
Definition int_sign (body : string) : bool * string :=
  match body with
  | String c r =>
      if Ascii.eqb c "+" then (false, r)
      else if Ascii.eqb c "-" then (true, r)
      else (false, body)
  | EmptyString => (false, EmptyString)
  end.

Definition int_of_str (s : string) : result Z :=
  let '(negative, digits) := int_sign (strip s) in
  match int_digits 0 false digits with
  | Some z =>
      if (digit_count digits <=? int_max_str_digits)%nat
      then Ok (if negative then - z else z)
      else Raise ValueError
  | None => Raise ValueError
  end.

(** [int(v)] *)
Definition int (v : pyval) : result Z :=
  match v with
  | PyStr s => int_of_str s
  | PyInt z => Ok z
  end.

(** ** [price_conversion] (seller.py) *)

(** [s.split(sep)] for a one-character separator: the pieces between the
    separators, never an empty list. *)
Fixpoint split (sep : ascii) (s : string) : list string :=
  match s with
  | EmptyString => [EmptyString]
  | String c r =>
      if Ascii.eqb c sep then EmptyString :: split sep r
      else match split sep r with
           | piece :: pieces => String c piece :: pieces
           | [] => [String c EmptyString]
           end
  end.

(** [re.sub("[^0-9]", repl, s)]: every character outside the class 0-9 is
    a match and is replaced by [repl]; the others are copied. *)
Fixpoint re_sub_non_digit (repl : string) (s : string) : string :=
  match s with
  | EmptyString => EmptyString
  | String c r =>
      if negb (is_digit c) then String.append repl (re_sub_non_digit repl r)
      else String c (re_sub_non_digit repl r)
  end.

Definition price_conversion (price : string) : string :=
  re_sub_non_digit "" (hd EmptyString (split "." price)).

(** The price normaliser as the specification words it: the text before
    the first ['.'], with every character that is not a digit deleted. *)
Fixpoint before_first_dot (s : string) : string :=
  match s with
  | EmptyString => EmptyString
  | String c r => if Ascii.eqb c "." then EmptyString else String c (before_first_dot r)
  end.

Fixpoint keep_digits (s : string) : string :=
  match s with
  | EmptyString => EmptyString
  | String c r => if is_digit c then String c (keep_digits r) else keep_digits r
  end.

Definition spec_price_normalize (priceText : string) : string :=
  keep_digits (before_first_dot priceText).

(** Strings made of digits only, and the number they write. *)
Fixpoint all_digits (s : string) : bool :=
  match s with
  | EmptyString => true
  | String c r => is_digit c && all_digits r
  end.

Fixpoint decimal_value (acc : Z) (s : string) : Z :=
  match s with
  | EmptyString => acc
  | String c r => decimal_value (10 * acc + digit_value c) r
  end.

(** Characters that can occur in a base-10 integer literal or around it. *)
Definition is_literal_char (c : ascii) : bool :=
  is_digit c || is_space c
  || Ascii.eqb c "+" || Ascii.eqb c "-" || Ascii.eqb c "_".

(** *** Base-10 integer literals, stated apart from [int_of_str] *)

(** Text made of the white space of [int()] only. *)
Fixpoint all_space (s : string) : bool :=
  match s with
  | EmptyString => true
  | String c r => is_space c && all_space r
  end.

(** Text made of ASCII characters only. *)
Fixpoint ascii_text (s : string) : bool :=
  match s with
  | EmptyString => true
  | String c r => (nat_of_ascii c <? 128)%nat && ascii_text r
  end.

(** The digits of a literal, [digit (["_"] digit)*].
    [digits_with_underscores started text digits]: [text] is the rest of
    such a sequence, where [started] tells that a digit came just before
    (so [text] may end, or go on with one underscore), and [digits] are
    the digits of [text], in order. *)
Inductive digits_with_underscores : bool -> string -> string -> Prop :=
| dwu_end : digits_with_underscores true EmptyString EmptyString
| dwu_digit (started : bool) (c : ascii) (text digits : string) :
    is_digit c = true ->
    digits_with_underscores true text digits ->
    digits_with_underscores started (String c text) (String c digits)
| dwu_underscore (text digits : string) :
    digits_with_underscores false text digits ->
    digits_with_underscores true (String "_" text) digits.

(** [text] is a base-10 integer literal of value [v] for [int()]: white
    space, an optional sign, digits with single underscores between
    them, white space; at most [int_max_str_digits] digits. *)
Definition is_int_literal (text : string) (v : Z) : Prop :=
  exists blank_before sign body blank_after digits : string,
    text = (blank_before ++ sign ++ body ++ blank_after)%string
    /\ all_space blank_before = true
    /\ all_space blank_after = true
    /\ (sign = "" \/ sign = "+" \/ sign = "-")
    /\ digits_with_underscores false body digits
    /\ (String.length digits <= int_max_str_digits)%nat
    /\ v = (if String.eqb sign "-" then - decimal_value 0 digits
            else decimal_value 0 digits).

(** [n] times the character [c]. *)
Fixpoint replicate (n : nat) (c : ascii) : string :=
  match n with
  | O => EmptyString
  | S n' => String c (replicate n' c)
  end.

(** ** Lists as the code uses them *)

(** [x in lst] on a list of strings. *)
Definition contains (x : string) (lst : list string) : bool :=
  existsb (String.eqb x) lst.

(** [lst.remove(x)]: drops the first item equal to [x]; [ValueError] when
    there is none. *)
Fixpoint list_remove (x : string) (lst : list string) : result (list string) :=
  match lst with
  | [] => Raise ValueError
  | y :: rest =>
      if String.eqb y x then Ok rest
      else (rest' <- list_remove x rest ;; Ok (y :: rest'))
  end.

(** Number of items of [range(start, stop, step)] for a non-zero step. *)
Definition range_len (start stop step : Z) : nat :=
  if 0 <? step then
    if start <? stop then Z.to_nat ((stop - start - 1) / step + 1) else 0%nat
  else
    if stop <? start then Z.to_nat ((start - stop - 1) / (- step) + 1) else 0%nat.

(** [range(start, stop, step)], forced. *)
Definition range (start stop step : Z) : result (list Z) :=
  if step =? 0 then Raise ValueError
  else Ok (map (fun k => start + Z.of_nat k * step)
               (seq 0 (range_len start stop step))).

(** Bound of a slice: negative bounds count from the end, and every bound
    is clipped to the list. *)
Definition slice_bound (len i : Z) : Z :=
  if i <? 0 then Z.max (i + len) 0 else Z.min i len.

(** [lst[lo:hi]] *)
Definition slice {A : Type} (lst : list A) (lo hi : Z) : list A :=
  let len := Z.of_nat (List.length lst) in
  let lo' := slice_bound len lo in
  let hi' := slice_bound len hi in
  firstn (Z.to_nat (hi' - lo')) (skipn (Z.to_nat lo') lst).

(** ** [divide] (seller.py)

    The generator is always consumed by [list(divide(lst, n))]; the model
    is that forced list.  The exception of [range] surfaces when the list
    is forced. *)
Definition divide {A : Type} (lst : list A) (n : Z) : result (list (list A)) :=
  idx <- range 0 (Z.of_nat (List.length lst)) n ;;
  Ok (map (fun i => slice lst i (i + n)) idx).

(** ** Quantity normalisation

    The block shared by both [create_stocks] (seller.py 253-259,
    market.py 174-180), applied to the cell [watch.get("Количество")]. *)
Definition stock_of_count (kolichestvo : pyval) : result Z :=
  let count := str kolichestvo in
  if String.eqb count ">10" then Ok 100
  else if String.eqb count "1" then Ok 0
  else int kolichestvo.

(** ** The HTTP layer *)

Section Requests.
Context {R : Type}.

(** A computation that issues requests: from the requests issued so far
    to its outcome and the requests issued after it. *)
Definition io (A : Type) : Type := list R -> result A * list R.

Definition io_ret {A} (a : A) : io A := fun sent => (Ok a, sent).

Definition io_bind {A B} (c : io A) (k : A -> io B) : io B :=
  fun sent =>
    match c sent with
    | (Ok a, sent') => k a sent'
    | (Raise e, sent') => (Raise e, sent')
    end.

Definition io_lift {A} (r : result A) : io A := fun sent => (r, sent).

(** The server: given the requests already issued and the next one,
    [None] when the call returns, [Some e] when it raises [e]. *)
Variable http : list R -> R -> option exn.

Definition request (r : R) : io unit :=
  fun sent =>
    match http sent r with
    | None => (Ok tt, sent ++ [r])
    | Some e => (Raise e, sent ++ [r])
    end.

(** [for x in items: body(x)] *)
Fixpoint for_each {A} (items : list A) (body : A -> io unit) : io unit :=
  match items with
  | [] => io_ret tt
  | x :: rest => io_bind (body x) (fun _ => for_each rest body)
  end.
End Requests.

Notation "x <~ c ;; k" := (io_bind c (fun x => k))
  (at level 61, c at next level, right associativity).

(** ** seller.py *)

Module Seller.

(** [{"offer_id": ..., "stock": ...}] *)
Record stock_entry : Type := StockEntry {
  offer_id : string;
  stock : Z
}.

(** The dictionary built by [create_prices]. *)
Record price_entry : Type := PriceEntry {
  auto_action_enabled : string;
  currency_code : string;
  price_offer_id : string;
  old_price : string;
  price : string
}.

(** One element of ["items"] in the answer of [get_product_list]. *)
Record product : Type := Product {
  product_id : Z;
  product_offer_id : string
}.

(** The ["result"] object that [get_product_list] returns. *)
Record product_list_result : Type := ProductListResult {
  items : list product;
  total : Z;
  last_id : string
}.

Section Listing.
(** [get_product_list(last_id, ...)]: the answer to the request carrying
    [last_id], given the values of [last_id] sent before; [Raise] when
    [raise_for_status] raises. *)
Variable get_product_list : list string -> string -> result product_list_result.

(** The [while True] loop of [get_offer_ids], run for at most [fuel]
    requests: [None] when the loop is still running after them, else the
    outcome with the values of [last_id] sent, in order. *)
Fixpoint get_offer_ids_loop (fuel : nat) (last_id : string)
    (product_list : list product) (asked : list string)
  : option (result (list product) * list string) :=
  match fuel with
  | O => None
  | S fuel =>
      match get_product_list asked last_id with
      | Raise e => Some (Raise e, asked ++ [last_id])
      | Ok some_prod =>
          let product_list := product_list ++ items some_prod in
          let total := total some_prod in
          let last_id' := Seller.last_id some_prod in
          if total =? Z.of_nat (List.length product_list)
          then Some (Ok product_list, asked ++ [last_id])
          else get_offer_ids_loop fuel last_id' product_list (asked ++ [last_id])
      end
  end.

(** [get_offer_ids(client_id, seller_token)] *)
Definition get_offer_ids (fuel : nat) : option (result (list string) * list string) :=
  match get_offer_ids_loop fuel "" [] [] with
  | None => None
  | Some (Raise e, asked) => Some (Raise e, asked)
  | Some (Ok product_list, asked) =>
      Some (Ok (map product_offer_id product_list), asked)
  end.
End Listing.

(** The first loop of [create_stocks]: [stocks] is the list built so
    far, [offer_ids] the current contents of the caller's list. *)
Fixpoint create_stocks_loop (watch_remnants : list watch)
    (stocks : list stock_entry) (offer_ids : list string)
  : result (list stock_entry) * list string :=
  match watch_remnants with
  | [] => (Ok stocks, offer_ids)
  | watch :: rest =>
      if contains (str (Kod watch)) offer_ids then
        match stock_of_count (Kolichestvo watch) with
        | Raise e => (Raise e, offer_ids)
        | Ok stock =>
            let stocks :=
              stocks ++ [ {| offer_id := str (Kod watch); stock := stock |} ] in
            match list_remove (str (Kod watch)) offer_ids with
            | Raise e => (Raise e, offer_ids)
            | Ok offer_ids => create_stocks_loop rest stocks offer_ids
            end
        end
      else create_stocks_loop rest stocks offer_ids
  end.

(** [create_stocks(watch_remnants, offer_ids)]: the value returned and
    the contents of [offer_ids] when the call ends. *)
Definition create_stocks (watch_remnants : list watch) (offer_ids : list string)
  : result (list stock_entry) * list string :=
  match create_stocks_loop watch_remnants [] offer_ids with
  | (Raise e, offer_ids) => (Raise e, offer_ids)
  | (Ok stocks, offer_ids) =>
      (Ok (stocks ++
           map (fun offer_id => {| offer_id := offer_id; stock := 0 |}) offer_ids),
       offer_ids)
  end.

Fixpoint create_prices_loop (watch_remnants : list watch)
    (prices : list price_entry) (offer_ids : list string) : list price_entry :=
  match watch_remnants with
  | [] => prices
  | watch :: rest =>
      if contains (str (Kod watch)) offer_ids then
        let price :=
          {| auto_action_enabled := "UNKNOWN";
             currency_code := "RUB";
             price_offer_id := str (Kod watch);
             old_price := "0";
             price := price_conversion (Tsena watch) |} in
        create_prices_loop rest (prices ++ [price]) offer_ids
      else create_prices_loop rest prices offer_ids
  end.

(** [create_prices(watch_remnants, offer_ids)]; it only reads
    [offer_ids] and nothing in it raises on a [str] price. *)
Definition create_prices (watch_remnants : list watch) (offer_ids : list string)
  : list price_entry :=
  create_prices_loop watch_remnants [] offer_ids.

(** The two update calls of the seller API, with their payloads. *)
Inductive call : Type :=
| update_price (prices : list price_entry)
| update_stocks (stocks : list stock_entry).

Section Drivers.
Variable http : list call -> call -> option exn.

(** The body of [upload_prices]; [offer_ids] is what [get_offer_ids]
    returned. *)
Definition upload_prices (watch_remnants : list watch) (offer_ids : list string)
  : io (R := call) (list price_entry) :=
  let prices := create_prices watch_remnants offer_ids in
  chunks <~ io_lift (divide prices 1000) ;;
  _ <~ for_each chunks (fun some_price => request http (update_price some_price)) ;;
  io_ret prices.

(** The body of [upload_stocks]. *)
Definition upload_stocks (watch_remnants : list watch) (offer_ids : list string)
  : io (R := call) (list stock_entry * list stock_entry) :=
  let '(created, offer_ids) := create_stocks watch_remnants offer_ids in
  stocks <~ io_lift created ;;
  chunks <~ io_lift (divide stocks 100) ;;
  _ <~ for_each chunks (fun some_stock => request http (update_stocks some_stock)) ;;
  let not_empty := filter (fun entry => negb (stock entry =? 0)) stocks in
  io_ret (not_empty, stocks).

(** The [try] block of [main], after [get_offer_ids] and
    [download_stock] have returned [offer_ids] and [watch_remnants]:
    both steps work on the one list object [offer_ids]. *)
Definition main_try (watch_remnants : list watch) (offer_ids : list string)
  : io (R := call) (list stock_entry * list price_entry) :=
  let '(created, offer_ids) := create_stocks watch_remnants offer_ids in
  stocks <~ io_lift created ;;
  stock_chunks <~ io_lift (divide stocks 100) ;;
  _ <~ for_each stock_chunks
         (fun some_stock => request http (update_stocks some_stock)) ;;
  let prices := create_prices watch_remnants offer_ids in
  price_chunks <~ io_lift (divide prices 900) ;;
  _ <~ for_each price_chunks
         (fun some_price => request http (update_price some_price)) ;;
  io_ret (stocks, prices).

(** [main]: every exception of the block is caught and reported; what
    remains is the sequence of requests issued. *)
Definition main (watch_remnants : list watch) (offer_ids : list string)
  : list call :=
  snd (main_try watch_remnants offer_ids []).
End Drivers.

End Seller.

(** ** market.py *)

Module Market.

(** One element of ["items"]. *)
Record item : Type := Item {
  count : Z;
  type : string;
  updatedAt : string
}.

(** The dictionary built by [create_stocks]. *)
Record stock_entry : Type := StockEntry {
  sku : string;
  warehouseId : string;
  items : list item
}.

Record price_value : Type := PriceValue {
  value : Z;
  currencyId : string
}.

(** The dictionary built by [create_prices]. *)
Record price_entry : Type := PriceEntry {
  id : string;
  price : price_value
}.

(** One element of ["offerMappingEntries"], read through
    [product.get("offer").get("shopSku")]. *)
Record offer_mapping_entry : Type := OfferMappingEntry {
  shopSku : string
}.

(** The ["result"] object that [get_product_list] returns;
    [nextPageToken] is [None] when ["paging"] has no such key. *)
Record offer_mapping_result : Type := OfferMappingResult {
  offerMappingEntries : list offer_mapping_entry;
  nextPageToken : option string
}.

(** [not page] *)
Definition no_page (page : option string) : bool :=
  match page with
  | None => true
  | Some token => String.eqb token ""
  end.

Section Listing.
(** [get_product_list(page, ...)]: the answer to the request carrying
    the page token [page], given the tokens sent before. *)
Variable get_product_list : list string -> string -> result offer_mapping_result.

(** The [while True] loop of [get_offer_ids], run for at most [fuel]
    requests. *)
Fixpoint get_offer_ids_loop (fuel : nat) (page : string)
    (product_list : list offer_mapping_entry) (asked : list string)
  : option (result (list offer_mapping_entry) * list string) :=
  match fuel with
  | O => None
  | S fuel =>
      match get_product_list asked page with
      | Raise e => Some (Raise e, asked ++ [page])
      | Ok some_prod =>
          let product_list := product_list ++ offerMappingEntries some_prod in
          match nextPageToken some_prod with
          | Some page' =>
              if String.eqb page' "" then Some (Ok product_list, asked ++ [page])
              else get_offer_ids_loop fuel page' product_list (asked ++ [page])
          | None => Some (Ok product_list, asked ++ [page])
          end
      end
  end.

(** [get_offer_ids(campaign_id, market_token)] *)
Definition get_offer_ids (fuel : nat) : option (result (list string) * list string) :=
  match get_offer_ids_loop fuel "" [] [] with
  | None => None
  | Some (Raise e, asked) => Some (Raise e, asked)
  | Some (Ok product_list, asked) => Some (Ok (map shopSku product_list), asked)
  end.
End Listing.

(** The first loop of [create_stocks]; [date] is the time stamp taken
    from the clock before the loop. *)
Fixpoint create_stocks_loop (warehouse_id date : string)
    (watch_remnants : list watch)
    (stocks : list stock_entry) (offer_ids : list string)
  : result (list stock_entry) * list string :=
  match watch_remnants with
  | [] => (Ok stocks, offer_ids)
  | watch :: rest =>
      if contains (str (Kod watch)) offer_ids then
        match stock_of_count (Kolichestvo watch) with
        | Raise e => (Raise e, offer_ids)
        | Ok stock =>
            let stocks :=
              stocks ++
              [ {| sku := str (Kod watch);
                   warehouseId := warehouse_id;
                   items := [ {| count := stock; type := "FIT";
                                 updatedAt := date |} ] |} ] in
            match list_remove (str (Kod watch)) offer_ids with
            | Raise e => (Raise e, offer_ids)
            | Ok offer_ids =>
                create_stocks_loop warehouse_id date rest stocks offer_ids
            end
        end
      else create_stocks_loop warehouse_id date rest stocks offer_ids
  end.

(** [create_stocks(watch_remnants, offer_ids, warehouse_id)] when the
    clock reads [date]: the value returned and the contents of
    [offer_ids] when the call ends. *)
Definition create_stocks (date : string) (watch_remnants : list watch)
    (offer_ids : list string) (warehouse_id : string)
  : result (list stock_entry) * list string :=
  match create_stocks_loop warehouse_id date watch_remnants [] offer_ids with
  | (Raise e, offer_ids) => (Raise e, offer_ids)
  | (Ok stocks, offer_ids) =>
      (Ok (stocks ++
           map (fun offer_id =>
                  {| sku := offer_id;
                     warehouseId := warehouse_id;
                     items := [ {| count := 0; type := "FIT";
                                   updatedAt := date |} ] |}) offer_ids),
       offer_ids)
  end.

Fixpoint create_prices_loop (watch_remnants : list watch)
    (prices : list price_entry) (offer_ids : list string)
  : result (list price_entry) :=
  match watch_remnants with
  | [] => Ok prices
  | watch :: rest =>
      if contains (str (Kod watch)) offer_ids then
        v <- int_of_str (price_conversion (Tsena watch)) ;;
        let price :=
          {| id := str (Kod watch);
             price := {| value := v; currencyId := "RUR" |} |} in
        create_prices_loop rest (prices ++ [price]) offer_ids
      else create_prices_loop rest prices offer_ids
  end.

(** [create_prices(watch_remnants, offer_ids)] *)
Definition create_prices (watch_remnants : list watch) (offer_ids : list string)
  : result (list price_entry) :=
  create_prices_loop watch_remnants [] offer_ids.

(** The two update calls of the market API, with their payloads. *)
Inductive call : Type :=
| update_price (prices : list price_entry)
| update_stocks (stocks : list stock_entry).

Section Drivers.
Variable http : list call -> call -> option exn.

(** The body of [upload_prices]. *)
Definition upload_prices (watch_remnants : list watch) (offer_ids : list string)
  : io (R := call) (list price_entry) :=
  prices <~ io_lift (create_prices watch_remnants offer_ids) ;;
  chunks <~ io_lift (divide prices 500) ;;
  _ <~ for_each chunks (fun some_prices => request http (update_price some_prices)) ;;
  io_ret prices.

(** The body of [upload_stocks]; every entry built by [create_stocks]
    has one item, so [items[0]] exists. *)
Definition upload_stocks (date : string) (watch_remnants : list watch)
    (offer_ids : list string) (warehouse_id : string)
  : io (R := call) (list stock_entry * list stock_entry) :=
  let '(created, offer_ids) :=
    create_stocks date watch_remnants offer_ids warehouse_id in
  stocks <~ io_lift created ;;
  chunks <~ io_lift (divide stocks 2000) ;;
  _ <~ for_each chunks (fun some_stock => request http (update_stocks some_stock)) ;;
  let not_empty :=
    filter (fun entry =>
              match items entry with
              | first :: _ => negb (count first =? 0)
              | [] => false
              end) stocks in
  io_ret (not_empty, stocks).
End Drivers.

(** A request of [main]: the campaign it is sent to, then the call. *)
Definition campaign_call : Type := (string * call)%type.

Section Main.
Variable http : list campaign_call -> campaign_call -> option exn.

(** The [try] block of [main], given what the two calls of
    [get_offer_ids] return and what the clock reads at the two calls of
    [create_stocks].  [upload_prices] is an [async def] that [main] calls
    without awaiting it: the call builds a coroutine and runs nothing. *)
Definition main_try (watch_remnants : list watch)
    (campaign_fbs_id campaign_dbs_id warehouse_fbs_id warehouse_dbs_id : string)
    (offer_ids_fbs offer_ids_dbs : list string) (date_fbs date_dbs : string)
  : io (R := campaign_call) unit :=
  let '(created, _) :=
    create_stocks date_fbs watch_remnants offer_ids_fbs warehouse_fbs_id in
  stocks <~ io_lift created ;;
  chunks <~ io_lift (divide stocks 2000) ;;
  _ <~ for_each chunks
         (fun some_stock => request http (campaign_fbs_id, update_stocks some_stock)) ;;
  let '(created, _) :=
    create_stocks date_dbs watch_remnants offer_ids_dbs warehouse_dbs_id in
  stocks <~ io_lift created ;;
  chunks <~ io_lift (divide stocks 2000) ;;
  for_each chunks
    (fun some_stock => request http (campaign_dbs_id, update_stocks some_stock)).

(** [main]: the requests issued; every exception of the block is caught
    and reported. *)
Definition main (watch_remnants : list watch)
    (campaign_fbs_id campaign_dbs_id warehouse_fbs_id warehouse_dbs_id : string)
    (offer_ids_fbs offer_ids_dbs : list string) (date_fbs date_dbs : string)
  : list campaign_call :=
  snd (main_try watch_remnants campaign_fbs_id campaign_dbs_id
         warehouse_fbs_id warehouse_dbs_id offer_ids_fbs offer_ids_dbs
         date_fbs date_dbs []).
End Main.

End Market.

(** ** What reconciliation computes, stated on the inputs *)

(** The offer code of a feed record, as the code compares it. *)
Definition code (w : watch) : string := str (Kod w).

Definition codes (feed : list watch) : list string := map code feed.

(** The items of a list at their first occurrence, in order. *)
Fixpoint first_occurrences (l : list string) : list string :=
  match l with
  | [] => []
  | x :: rest =>
      x :: filter (fun y => negb (String.eqb y x)) (first_occurrences rest)
  end.

(** Codes of the feed that the channel lists, in feed order. *)
Definition matched_codes (feed : list watch) (offer_ids : list string) : list string :=
  first_occurrences (filter (fun c => contains c offer_ids) (codes feed)).

(** Codes the channel lists and the feed lacks, in listing order. *)
Definition channel_only (feed : list watch) (offer_ids : list string) : list string :=
  filter (fun c => negb (contains c (codes feed))) offer_ids.

(** The first record of the feed with code [c]. *)
Definition first_record (c : string) (feed : list watch) : option watch :=
  find (fun w => String.eqb (code w) c) feed.

(** The stock of code [c] read from its first record. *)
Definition matched_stock (feed : list watch) (c : string) : Z :=
  match first_record c feed with
  | Some w =>
      match stock_of_count (Kolichestvo w) with
      | Ok z => z
      | Raise _ => 0
      end
  | None => 0
  end.

(** Every listed code has, in its first feed record, a quantity that the
    normalisation accepts. *)
Definition quantities_recognised (feed : list watch) (offer_ids : list string) : Prop :=
  forall c w, In c offer_ids -> first_record c feed = Some w ->
    exists z, stock_of_count (Kolichestvo w) = Ok z.

(** Every feed record with a listed code has, before the first ['.'] of
    its price, at least one digit and no more digits than [int()] takes. *)
Definition prices_readable (feed : list watch) (offer_ids : list string) : Prop :=
  forall w, In w feed -> In (code w) offer_ids ->
    price_conversion (Tsena w) <> ""
    /\ (String.length (price_conversion (Tsena w)) <= int_max_str_digits)%nat.

(** The first loop of [create_stocks] for any shape of entry. *)
Section StockLoop.
Context {E : Type} (entry : string -> Z -> E).

Fixpoint stocks_loop (feed : list watch) (acc : list E) (ids : list string)
  : result (list E) * list string :=
  match feed with
  | [] => (Ok acc, ids)
  | w :: rest =>
      if contains (code w) ids then
        match stock_of_count (Kolichestvo w) with
        | Raise e => (Raise e, ids)
        | Ok z =>
            match list_remove (code w) ids with
            | Raise e => (Raise e, ids)
            | Ok ids' => stocks_loop rest (acc ++ [entry (code w) z]) ids'
            end
        end
      else stocks_loop rest acc ids
  end.
End StockLoop.

Definition seller_entry (c : string) (z : Z) : Seller.stock_entry :=
  Seller.StockEntry c z.

Definition market_entry (warehouse_id date : string) (c : string) (z : Z)
  : Market.stock_entry :=
  Market.StockEntry c warehouse_id [Market.Item z "FIT" date].

(** The price entries built for one record. *)
Definition seller_price_of (w : watch) : Seller.price_entry :=
  Seller.PriceEntry "UNKNOWN" "RUB" (code w) "0" (price_conversion (Tsena w)).

Definition market_price_of (w : watch) : Market.price_entry :=
  Market.PriceEntry (code w)
    (Market.PriceValue (decimal_value 0 (price_conversion (Tsena w))) "RUR").

(** Records of the feed whose code the channel lists, in feed order. *)
Definition listed (feed : list watch) (offer_ids : list string) : list watch :=
  filter (fun w => contains (code w) offer_ids) feed.

Definition prices_readableb (feed : list watch) (offer_ids : list string) : bool :=
  forallb (fun w => negb (contains (code w) offer_ids)
                    || (negb (String.eqb (price_conversion (Tsena w)) "")
                        && (String.length (price_conversion (Tsena w))
                            <=? int_max_str_digits)%nat))
          feed.

(** The price requests among the requests issued. *)
Definition seller_price_calls (sent : list Seller.call) : list Seller.call :=
  filter (fun r => match r with
                   | Seller.update_price _ => true
                   | Seller.update_stocks _ => false
                   end) sent.

(** Sizes of the payloads of a sequence of market requests. *)
Definition market_sizes (sent : list Market.call) : list nat :=
  map (fun r => match r with
                | Market.update_price prices => List.length prices
                | Market.update_stocks stocks => List.length stocks
                end) sent.

(** [chunks] cuts [entries] into consecutive pieces of [limit] items, the
    last one holding what is left (at least one item). *)
Definition batches_of {A : Type} (limit : nat) (entries : list A)
    (chunks : list (list A)) : Prop :=
  List.concat chunks = entries /\
  forall i chunk, nth_error chunks i = Some chunk ->
    (0 < List.length chunk <= limit)%nat /\
    ((S i < List.length chunks)%nat -> List.length chunk = limit).

(** The first [m] consecutive pieces of [size] items of a list. *)
Definition pieces {A : Type} (size : nat) (lst : list A) (m : nat) : list (list A) :=
  map (fun k => firstn size (skipn (k * size) lst)) (seq 0 m).

(** A listing of 2500 distinct offer codes, "0" to "2499". *)
Definition sample_offer_ids : list string :=
  map (fun k => str (PyInt (Z.of_nat k))) (seq 0 2500).

(** A server that answers every request. *)
Definition always_ok {R : Type} (http : list R -> R -> option exn) : Prop :=
  forall sent r, http sent r = None.

(** Boolean forms of the side conditions, to decide them on concrete
    inputs. *)
Fixpoint nodupb (l : list string) : bool :=
  match l with
  | [] => true
  | x :: rest => negb (contains x rest) && nodupb rest
  end.

Definition quantities_recognisedb (feed : list watch) (offer_ids : list string) : bool :=
  forallb (fun c =>
             match first_record c feed with
             | Some w =>
                 match stock_of_count (Kolichestvo w) with
                 | Ok _ => true
                 | Raise _ => false
                 end
             | None => true
             end) offer_ids.

(** Unfolding of the request monad in a goal. *)
Ltac run_io := unfold io_bind, io_lift, io_ret; cbv beta iota zeta.

(** ** Servers used to state the paging properties *)

(** The seller server lists [catalog] in consecutive pages of [size]
    products and reports the size of the catalogue as the total. *)
Definition seller_serves_in_pages
    (get_product_list : list string -> string -> result Seller.product_list_result)
    (catalog : list Seller.product) (size : nat) : Prop :=
  forall asked last_id, exists next,
    get_product_list asked last_id
    = Ok (Seller.ProductListResult
            (firstn size (skipn (List.length asked * size) catalog))
            (Z.of_nat (List.length catalog)) next).

Definition seller_paged_server (catalog : list Seller.product) (size : nat)
  : list string -> string -> result Seller.product_list_result :=
  fun asked _ =>
    Ok (Seller.ProductListResult
          (firstn size (skipn (List.length asked * size) catalog))
          (Z.of_nat (List.length catalog)) "next").

(** The market server lists [catalog] in consecutive pages of [size]
    entries and gives a page token exactly while entries remain. *)
Definition market_serves_in_pages
    (get_product_list : list string -> string -> result Market.offer_mapping_result)
    (catalog : list Market.offer_mapping_entry) (size : nat) : Prop :=
  forall asked page, exists next,
    get_product_list asked page
    = Ok (Market.OfferMappingResult
            (firstn size (skipn (List.length asked * size) catalog)) next)
    /\ Market.no_page next
       = (List.length catalog <=? S (List.length asked) * size)%nat.

Definition market_paged_server (catalog : list Market.offer_mapping_entry)
    (size : nat)
  : list string -> string -> result Market.offer_mapping_result :=
  fun asked _ =>
    Ok (Market.OfferMappingResult
          (firstn size (skipn (List.length asked * size) catalog))
          (if (List.length catalog <=? S (List.length asked) * size)%nat
           then None else Some "next")).

(** A request of the market [main] that updates stocks. *)
Definition is_stock_call (r : Market.campaign_call) : bool :=
  match snd r with
  | Market.update_stocks _ => true
  | Market.update_price _ => false
  end.

(** * Properties *)

(** ** The documented scenario *)

(** The feed with the codes 123 (">10") and 456 ("1") against the listing
    123, 456, 789. *)
Example end_to_end_stocks :
  Seller.create_stocks
    [Watch (PyStr "123") (PyStr ">10") "1000.00 p.";
     Watch (PyStr "456") (PyStr "1") "2000.00 p."]
    ["123"; "456"; "789"]
  = (Ok [Seller.StockEntry "123" 100; Seller.StockEntry "456" 0;
         Seller.StockEntry "789" 0],
     ["789"]).
Proof. reflexivity. Qed.

Example end_to_end_prices :
  map (fun p => (Seller.price_offer_id p, Seller.price p))
    (Seller.create_prices
       [Watch (PyStr "123") (PyStr ">10") "1000.00 p.";
        Watch (PyStr "456") (PyStr "1") "2000.00 p."]
       ["123"; "456"; "789"])
  = [("123", "1000"); ("456", "2000")].
Proof. reflexivity. Qed.

Example market_end_to_end_prices :
  Market.create_prices
    [Watch (PyStr "123") (PyStr ">10") "1000.00 p.";
     Watch (PyInt 456) (PyInt 1) "2'000.00 p."]
    ["123"; "456"; "789"]
  = Ok [Market.PriceEntry "123" (Market.PriceValue 1000 "RUR");
        Market.PriceEntry "456" (Market.PriceValue 2000 "RUR")].
Proof. reflexivity. Qed.

(** ** Basic facts on lists of codes *)

Lemma contains_In (x : string) (l : list string) :
  contains x l = true <-> In x l.
Proof.
  unfold contains. rewrite existsb_exists. split.
  - intros [y [Hy He]]. apply String.eqb_eq in He. now subst.
  - intros H. exists x. split; [assumption | apply String.eqb_refl].
Qed.

Lemma contains_false (x : string) (l : list string) :
  contains x l = false <-> ~ In x l.
Proof.
  rewrite <- contains_In. destruct (contains x l); intuition congruence.
Qed.

Lemma filter_twice {A} (f g : A -> bool) (l : list A) :
  filter f (filter g l) = filter (fun x => g x && f x) l.
Proof.
  induction l as [|a l IH]; simpl; [reflexivity|].
  destruct (g a); simpl; [destruct (f a)|]; now rewrite IH.
Qed.

Lemma filter_all {A} (f : A -> bool) (l : list A) :
  (forall x, In x l -> f x = true) -> filter f l = l.
Proof.
  induction l as [|a l IH]; simpl; intros H; [reflexivity|].
  rewrite (H a) by now left. f_equal. apply IH. intros x Hx. apply H. now right.
Qed.

Lemma list_remove_NoDup (x : string) (l : list string) :
  NoDup l -> contains x l = true ->
  list_remove x l = Ok (filter (fun y => negb (String.eqb y x)) l).
Proof.
  induction l as [|y l IH]; simpl; intros Hnd Hin; [discriminate|].
  inversion Hnd as [|? ? Hy Hl]; subst.
  rewrite (String.eqb_sym x y) in Hin.
  destruct (String.eqb y x) eqn:E; simpl.
  - apply String.eqb_eq in E. subst y. f_equal. symmetry. apply filter_all.
    intros z Hz. apply negb_true_iff, String.eqb_neq. intros ->. contradiction.
  - simpl in Hin. rewrite (IH Hl Hin). reflexivity.
Qed.

Lemma first_occurrences_filter (p : string -> bool) (l : list string) :
  filter p (first_occurrences l) = first_occurrences (filter p l).
Proof.
  induction l as [|x l IH]; simpl; [reflexivity|].
  destruct (p x) eqn:Px; simpl.
  - f_equal. rewrite <- IH. rewrite !filter_twice. apply filter_ext.
    intros y. apply andb_comm.
  - rewrite <- IH. rewrite filter_twice. apply filter_ext. intros y.
    destruct (String.eqb y x) eqn:E; simpl; [|reflexivity].
    apply String.eqb_eq in E. subst y. now rewrite Px.
Qed.

Lemma first_occurrences_In (l : list string) (x : string) :
  In x (first_occurrences l) <-> In x l.
Proof.
  induction l as [|y l IH]; simpl; [tauto|].
  rewrite filter_In, IH, negb_true_iff, String.eqb_neq.
  destruct (string_dec y x) as [->|N]; [tauto|].
  split; [tauto|]. intros [H|H]; [contradiction|]. right. split; congruence.
Qed.

Lemma first_occurrences_NoDup (l : list string) : NoDup (first_occurrences l).
Proof.
  induction l as [|y l IH]; simpl; constructor.
  - rewrite filter_In, negb_true_iff, String.eqb_neq. tauto.
  - now apply NoDup_filter.
Qed.

Lemma contains_filter (p : string -> bool) (c : string) (l : list string) :
  contains c (filter p l) = contains c l && p c.
Proof.
  induction l as [|y l IH]; simpl; [reflexivity|].
  destruct (p y) eqn:Py; simpl; rewrite IH.
  - destruct (String.eqb c y) eqn:E; simpl; [|reflexivity].
    apply String.eqb_eq in E. subst y. now rewrite Py.
  - destruct (String.eqb c y) eqn:E; simpl; [|reflexivity].
    apply String.eqb_eq in E. subst y. rewrite Py. now rewrite andb_false_r.
Qed.

(** ** The first loop of [create_stocks] *)

Lemma first_record_cons_ne (w : watch) (rest : list watch) (c : string) :
  code w <> c -> first_record c (w :: rest) = first_record c rest.
Proof.
  intros N. unfold first_record. simpl.
  apply String.eqb_neq in N. now rewrite N.
Qed.

Lemma first_record_cons_eq (w : watch) (rest : list watch) :
  first_record (code w) (w :: rest) = Some w.
Proof. unfold first_record. simpl. now rewrite String.eqb_refl. Qed.

Lemma matched_stock_cons_ne (w : watch) (rest : list watch) (c : string) :
  code w <> c -> matched_stock (w :: rest) c = matched_stock rest c.
Proof. intros N. unfold matched_stock. now rewrite first_record_cons_ne. Qed.

Lemma quantities_recognised_tail (w : watch) (rest : list watch)
    (ids ids' : list string) :
  (forall c, In c ids' -> In c ids /\ code w <> c) ->
  quantities_recognised (w :: rest) ids -> quantities_recognised rest ids'.
Proof.
  intros Hsub Hq c w' Hc Hf. destruct (Hsub c Hc) as [Hin Hne].
  apply (Hq c w' Hin). now rewrite first_record_cons_ne.
Qed.

Section StockLoopFacts.
Context {E : Type} (entry : string -> Z -> E).

Lemma stocks_loop_spec (feed : list watch) :
  forall (acc : list E) (ids : list string),
    NoDup ids -> quantities_recognised feed ids ->
    stocks_loop entry feed acc ids
    = (Ok (acc ++ map (fun c => entry c (matched_stock feed c))
                      (matched_codes feed ids)),
       channel_only feed ids).
Proof.
  induction feed as [|w rest IH]; intros acc ids Hnd Hq; simpl.
  - unfold matched_codes, channel_only. simpl. rewrite app_nil_r.
    now rewrite filter_all.
  - destruct (contains (code w) ids) eqn:Hc.
    + destruct (Hq (code w) w) as [z Hz];
        [now apply contains_In | apply first_record_cons_eq |].
      rewrite Hz, (list_remove_NoDup _ _ Hnd Hc).
      rewrite IH; [| now apply NoDup_filter |].
      * f_equal.
        -- rewrite <- app_assoc. f_equal. unfold matched_codes. simpl.
           fold (code w). rewrite Hc. simpl.
           unfold matched_stock at 2. rewrite first_record_cons_eq, Hz.
           rewrite first_occurrences_filter, filter_twice.
           rewrite (filter_ext (fun c => contains c ids && negb (String.eqb c (code w)))
                      (fun c => contains c (filter (fun y => negb (String.eqb y (code w))) ids)))
             by (intros c; now rewrite contains_filter).
           simpl. apply (f_equal (app acc)). apply (f_equal (cons _)).
           apply map_ext_in. intros c Hin.
           rewrite matched_stock_cons_ne; [reflexivity|].
           apply first_occurrences_In, filter_In in Hin. destruct Hin as [_ Hin].
           rewrite contains_filter in Hin. apply andb_true_iff in Hin.
           destruct Hin as [_ Hin]. apply negb_true_iff, String.eqb_neq in Hin.
           congruence.
        -- unfold channel_only. rewrite filter_twice. apply filter_ext.
           intros c. unfold codes, contains. simpl. now rewrite negb_orb.
      * eapply quantities_recognised_tail; [|exact Hq].
        intros c Hin. apply filter_In in Hin. destruct Hin as [Hin Hne].
        apply negb_true_iff, String.eqb_neq in Hne. split; congruence.
    + assert (Hne : forall c, In c ids -> code w <> c).
      { intros c Hin Heq. subst c. apply contains_false in Hc. contradiction. }
      rewrite IH; [| assumption |].
      * f_equal.
        -- unfold matched_codes. simpl. fold (code w). rewrite Hc.
           apply (f_equal Ok), (f_equal (app acc)), map_ext_in. intros c Hin.
           rewrite matched_stock_cons_ne; [reflexivity|]. apply Hne.
           apply first_occurrences_In, filter_In in Hin.
           now apply contains_In.
        -- unfold channel_only. apply filter_ext_in. intros c Hin.
           unfold codes, contains. simpl. specialize (Hne c Hin).
           apply not_eq_sym, String.eqb_neq in Hne. now rewrite Hne.
      * eapply quantities_recognised_tail; [|exact Hq].
        intros c Hin. split; [assumption | now apply Hne].
Qed.
End StockLoopFacts.

Lemma seller_loop_eq (feed : list watch) :
  forall acc ids,
    Seller.create_stocks_loop feed acc ids = stocks_loop seller_entry feed acc ids.
Proof.
  induction feed as [|w rest IH]; intros acc ids; simpl; [reflexivity|].
  fold (code w). destruct (contains (code w) ids); [|apply IH].
  destruct (stock_of_count (Kolichestvo w)); [|reflexivity].
  destruct (list_remove (code w) ids); [apply IH | reflexivity].
Qed.

Lemma market_loop_eq (warehouse_id date : string) (feed : list watch) :
  forall acc ids,
    Market.create_stocks_loop warehouse_id date feed acc ids
    = stocks_loop (market_entry warehouse_id date) feed acc ids.
Proof.
  induction feed as [|w rest IH]; intros acc ids; simpl; [reflexivity|].
  fold (code w). destruct (contains (code w) ids); [|apply IH].
  destruct (stock_of_count (Kolichestvo w)); [|reflexivity].
  destruct (list_remove (code w) ids); [apply IH | reflexivity].
Qed.

(** The list left to the caller by a first loop that ends normally. *)
Lemma stocks_loop_left {E : Type} (entry : string -> Z -> E) (feed : list watch) :
  forall acc ids stocks left,
    NoDup ids ->
    stocks_loop entry feed acc ids = (Ok stocks, left) ->
    left = channel_only feed ids.
Proof.
  induction feed as [|w rest IH]; intros acc ids stocks left Hnd H; simpl in H.
  - inversion H; subst. unfold channel_only. simpl. now rewrite filter_all.
  - destruct (contains (code w) ids) eqn:Hc.
    + destruct (stock_of_count (Kolichestvo w)) as [z|e]; [|discriminate].
      rewrite (list_remove_NoDup _ _ Hnd Hc) in H.
      apply IH in H; [|now apply NoDup_filter]. rewrite H.
      unfold channel_only. rewrite filter_twice. apply filter_ext.
      intros c. unfold codes, contains. simpl. now rewrite negb_orb.
    + apply IH in H; [|assumption]. rewrite H.
      unfold channel_only. apply filter_ext_in. intros c Hin.
      unfold codes, contains. simpl.
      destruct (String.eqb c (code w)) eqn:Heq; [|reflexivity].
      apply String.eqb_eq in Heq. subst c. apply contains_false in Hc. contradiction.
Qed.

(** A first loop that meets an unrecognised quantity raises [ValueError]. *)
Lemma stock_of_count_raise (v : pyval) (e : exn) :
  stock_of_count v = Raise e -> e = ValueError.
Proof.
  unfold stock_of_count.
  destruct (String.eqb (str v) ">10"); [discriminate|].
  destruct (String.eqb (str v) "1"); [discriminate|].
  destruct v as [s|z]; simpl; [|discriminate].
  unfold int_of_str. destruct (int_sign (strip s)) as [negative digits].
  destruct (int_digits 0 false digits); [|congruence].
  destruct (digit_count digits <=? int_max_str_digits)%nat; congruence.
Qed.

Lemma stocks_loop_raises {E : Type} (entry : string -> Z -> E) (feed : list watch) :
  forall acc ids,
    NoDup ids ->
    (exists c w, In c ids /\ first_record c feed = Some w /\
                 forall z, stock_of_count (Kolichestvo w) <> Ok z) ->
    exists left, stocks_loop entry feed acc ids = (Raise ValueError, left).
Proof.
  induction feed as [|w0 rest IH]; intros acc ids Hnd (c & w & Hin & Hf & Hbad).
  - discriminate.
  - simpl. destruct (contains (code w0) ids) eqn:Hc.
    + destruct (stock_of_count (Kolichestvo w0)) as [z|e] eqn:Hs.
      * rewrite (list_remove_NoDup _ _ Hnd Hc).
        assert (Hne : code w0 <> c).
        { intros Heq. subst c. rewrite first_record_cons_eq in Hf.
          inversion Hf; subst. now apply (Hbad z). }
        apply IH; [now apply NoDup_filter|].
        exists c, w. rewrite first_record_cons_ne in Hf by assumption.
        repeat split; try assumption.
        apply filter_In. split; [assumption|].
        apply negb_true_iff, String.eqb_neq. congruence.
      * apply stock_of_count_raise in Hs. subst e. now exists ids.
    + apply IH; [assumption|]. exists c, w.
      assert (Hne : code w0 <> c).
      { intros Heq. subst c. apply contains_false in Hc. contradiction. }
      rewrite first_record_cons_ne in Hf by assumption. now repeat split.
Qed.

(** ** The codes of the reconciled list *)

Lemma matched_codes_In (feed : list watch) (ids : list string) (c : string) :
  In c (matched_codes feed ids) <-> In c ids /\ In c (codes feed).
Proof.
  unfold matched_codes. rewrite first_occurrences_In, filter_In, contains_In. tauto.
Qed.

Lemma channel_only_In (feed : list watch) (ids : list string) (c : string) :
  In c (channel_only feed ids) <-> In c ids /\ ~ In c (codes feed).
Proof.
  unfold channel_only. rewrite filter_In, negb_true_iff, contains_false. tauto.
Qed.

Lemma reconciled_NoDup (feed : list watch) (ids : list string) :
  NoDup ids -> NoDup (matched_codes feed ids ++ channel_only feed ids).
Proof.
  intros Hnd. apply NoDup_app.
  - apply first_occurrences_NoDup.
  - now apply NoDup_filter.
  - intros c Hm Ho. apply matched_codes_In in Hm. apply channel_only_In in Ho. tauto.
Qed.

Lemma reconciled_In (feed : list watch) (ids : list string) (c : string) :
  In c (matched_codes feed ids ++ channel_only feed ids) <-> In c ids.
Proof.
  rewrite in_app_iff, matched_codes_In, channel_only_In.
  destruct (in_dec string_dec c (codes feed)); tauto.
Qed.

Lemma reconciled_Permutation (feed : list watch) (ids : list string) :
  NoDup ids -> Permutation (matched_codes feed ids ++ channel_only feed ids) ids.
Proof.
  intros Hnd. apply NoDup_Permutation;
    [now apply reconciled_NoDup | assumption | apply reconciled_In].
Qed.

(** ** Deciding the side conditions on concrete inputs *)

Lemma nodupb_NoDup (l : list string) : nodupb l = true -> NoDup l.
Proof.
  induction l as [|x l IH]; simpl; intros H; constructor;
    apply andb_true_iff in H; destruct H as [Hx Hl].
  - now apply contains_false, negb_true_iff.
  - now apply IH.
Qed.

Lemma quantities_recognisedb_ok (feed : list watch) (offer_ids : list string) :
  quantities_recognisedb feed offer_ids = true ->
  quantities_recognised feed offer_ids.
Proof.
  unfold quantities_recognisedb. rewrite forallb_forall.
  intros H c w Hin Hf. specialize (H c Hin). rewrite Hf in H.
  destruct (stock_of_count (Kolichestvo w)) as [z|e]; [now exists z | discriminate].
Qed.

(** ** [create_stocks] *)

Lemma seller_create_stocks_ok (feed : list watch) (offer_ids : list string) :
  NoDup offer_ids -> quantities_recognised feed offer_ids ->
  Seller.create_stocks feed offer_ids
  = (Ok (map (fun c => Seller.StockEntry c (matched_stock feed c))
             (matched_codes feed offer_ids)
         ++ map (fun c => Seller.StockEntry c 0) (channel_only feed offer_ids)),
     channel_only feed offer_ids).
Proof.
  intros Hnd Hq. unfold Seller.create_stocks.
  rewrite seller_loop_eq, (stocks_loop_spec seller_entry feed [] _ Hnd Hq).
  reflexivity.
Qed.

Lemma market_create_stocks_ok (date warehouse_id : string)
    (feed : list watch) (offer_ids : list string) :
  NoDup offer_ids -> quantities_recognised feed offer_ids ->
  Market.create_stocks date feed offer_ids warehouse_id
  = (Ok (map (fun c => market_entry warehouse_id date c (matched_stock feed c))
             (matched_codes feed offer_ids)
         ++ map (fun c => market_entry warehouse_id date c 0)
                (channel_only feed offer_ids)),
     channel_only feed offer_ids).
Proof.
  intros Hnd Hq. unfold Market.create_stocks.
  rewrite market_loop_eq,
    (stocks_loop_spec (market_entry warehouse_id date) feed [] _ Hnd Hq).
  reflexivity.
Qed.

(** When the first record of some listed code carries a quantity that the
    normalisation rejects, both [create_stocks] raise [ValueError]. *)
Lemma create_stocks_raises (feed : list watch) (offer_ids : list string) :
  NoDup offer_ids ->
  (exists c w, In c offer_ids /\ first_record c feed = Some w /\
               forall z, stock_of_count (Kolichestvo w) <> Ok z) ->
  (exists left, Seller.create_stocks feed offer_ids = (Raise ValueError, left)) /\
  (forall date warehouse_id, exists left,
     Market.create_stocks date feed offer_ids warehouse_id = (Raise ValueError, left)).
Proof.
  intros Hnd Hbad. split.
  - destruct (stocks_loop_raises seller_entry feed [] _ Hnd Hbad) as [left H].
    exists left. unfold Seller.create_stocks. now rewrite seller_loop_eq, H.
  - intros date wh.
    destruct (stocks_loop_raises (market_entry wh date) feed [] _ Hnd Hbad)
      as [left H].
    exists left. unfold Market.create_stocks. now rewrite market_loop_eq, H.
Qed.

(** C1, as amended.  For a duplicate-free [offer_ids] and a feed in which
    the first record of every listed code carries a quantity that the
    normalisation accepts, [create_stocks] of seller.py and of market.py
    return: first one entry per listed code found in the feed, in feed
    order, with the stock of its first record; then one entry with count
    0 per listed code that the feed lacks, in listing order.  The codes
    of the result are a duplicate-free rearrangement of [offer_ids]. *)
Theorem create_stocks_reconciles (feed : list watch) (offer_ids : list string) :
  NoDup offer_ids ->
  quantities_recognised feed offer_ids ->
  Seller.create_stocks feed offer_ids
  = (Ok (map (fun c => Seller.StockEntry c (matched_stock feed c))
             (matched_codes feed offer_ids)
         ++ map (fun c => Seller.StockEntry c 0) (channel_only feed offer_ids)),
     channel_only feed offer_ids)
  /\ (forall date warehouse_id,
        Market.create_stocks date feed offer_ids warehouse_id
        = (Ok (map (fun c => market_entry warehouse_id date c (matched_stock feed c))
                   (matched_codes feed offer_ids)
               ++ map (fun c => market_entry warehouse_id date c 0)
                      (channel_only feed offer_ids)),
           channel_only feed offer_ids))
  /\ Permutation (matched_codes feed offer_ids ++ channel_only feed offer_ids)
                 offer_ids
  /\ NoDup (matched_codes feed offer_ids ++ channel_only feed offer_ids)
  /\ (forall c, In c (matched_codes feed offer_ids)
                <-> In c offer_ids /\ In c (codes feed))
  /\ (forall c, In c (channel_only feed offer_ids)
                <-> In c offer_ids /\ ~ In c (codes feed)).
Proof.
  intros Hnd Hq. split; [|split; [|split; [|split; [|split]]]].
  - now apply seller_create_stocks_ok.
  - intros date wh. now apply market_create_stocks_ok.
  - now apply reconciled_Permutation.
  - now apply reconciled_NoDup.
  - intros c. apply matched_codes_In.
  - intros c. apply channel_only_In.
Qed.

Lemma create_stocks_reconciles_witness :
  Seller.create_stocks
    [Watch (PyStr "123") (PyStr ">10") "1000.00 p.";
     Watch (PyInt 456) (PyStr "1") "2000.00 p.";
     Watch (PyStr "123") (PyStr "abc") "1.00 p.";
     Watch (PyStr "000") (PyStr "7") "3000.00 p."]
    ["123"; "456"; "789"]
  = (Ok [Seller.StockEntry "123" 100; Seller.StockEntry "456" 0;
         Seller.StockEntry "789" 0], ["789"]).
Proof.
  refine (proj1 (create_stocks_reconciles _ _ _ _)).
  - apply nodupb_NoDup. reflexivity.
  - apply quantities_recognisedb_ok. reflexivity.
Defined.

(** C1 as stated fails on a feed whose matched record has a quantity that
    is no sentinel and no integer literal: the call raises and returns no
    entry at all. *)
Lemma create_stocks_unrecognised_quantity :
  NoDup ["123"] /\
  Seller.create_stocks [Watch (PyStr "123") (PyStr "abc") "1000.00 p."] ["123"]
  = (Raise ValueError, ["123"]) /\
  ~ exists stocks left,
      Seller.create_stocks [Watch (PyStr "123") (PyStr "abc") "1000.00 p."] ["123"]
      = (Ok stocks, left) /\
      Permutation (map Seller.offer_id stocks) ["123"].
Proof.
  split; [apply nodupb_NoDup; reflexivity|]. split; [reflexivity|].
  intros (stocks & left & H & _). discriminate H.
Qed.

(** C2.  After [create_stocks] the caller's list no longer holds the
    codes that the feed matched: on the feed with the one code "123" and
    the list ["123", "456"] the caller is left with ["456"], in seller.py
    and in market.py alike. *)
Theorem create_stocks_shrinks_offer_ids :
  snd (Seller.create_stocks
         [Watch (PyStr "123") (PyStr ">10") "1000.00 p."] ["123"; "456"])
  = ["456"]
  /\ (forall date warehouse_id,
        snd (Market.create_stocks date
               [Watch (PyStr "123") (PyStr ">10") "1000.00 p."] ["123"; "456"]
               warehouse_id)
        = ["456"])
  /\ Seller.create_prices [Watch (PyStr "123") (PyStr ">10") "1000.00 p."] ["456"]
     = [].
Proof. repeat split. Qed.

(** ** Price normalisation *)

Lemma split_hd (s : string) : hd EmptyString (split "." s) = before_first_dot s.
Proof.
  induction s as [|c r IH]; simpl; [reflexivity|].
  destruct (Ascii.eqb c "."); [reflexivity|].
  destruct (split "." r) as [|piece pieces]; simpl in *; now rewrite <- IH.
Qed.

Lemma re_sub_keep_digits (s : string) : re_sub_non_digit "" s = keep_digits s.
Proof.
  induction s as [|c r IH]; simpl; [reflexivity|].
  destruct (is_digit c); simpl; now rewrite IH.
Qed.

Lemma price_conversion_spec (price : string) :
  price_conversion price = spec_price_normalize price.
Proof.
  unfold price_conversion, spec_price_normalize.
  now rewrite re_sub_keep_digits, split_hd.
Qed.

(** C6.  [price_conversion] is the reference normaliser (the text before
    the first ['.'] with every non-digit deleted) on every string, and the
    three sample prices give "5990", "12" and the empty string. *)
Theorem price_conversion_refines_spec :
  (forall price, price_conversion price = spec_price_normalize price)
  /\ price_conversion "5'990.00 руб." = "5990"
  /\ price_conversion "12.5" = "12"
  /\ price_conversion "руб." = "".
Proof.
  split; [exact price_conversion_spec|]. repeat split.
Qed.

(** ** Integer literals made of digits *)

Lemma digit_not_space (c : ascii) : is_digit c = true -> is_space c = false.
Proof.
  destruct c as [[] [] [] [] [] [] [] []]; simpl; intros H;
    try reflexivity; discriminate H.
Qed.

Lemma digit_not_mark (c : ascii) :
  is_digit c = true ->
  Ascii.eqb c "+" = false /\ Ascii.eqb c "-" = false /\ Ascii.eqb c "_" = false.
Proof.
  destruct c as [[] [] [] [] [] [] [] []]; simpl; intros H;
    try (repeat split; reflexivity); discriminate H.
Qed.

Lemma rstrip_digits (s : string) : all_digits s = true -> rstrip s = s.
Proof.
  induction s as [|c r IH]; simpl; [reflexivity|].
  intros H. apply andb_true_iff in H. destruct H as [Hc Hr].
  rewrite (IH Hr). destruct r; [|reflexivity].
  now rewrite (digit_not_space c Hc).
Qed.

Lemma strip_digits (s : string) : all_digits s = true -> strip s = s.
Proof.
  intros H. unfold strip.
  replace (lstrip s) with s; [now apply rstrip_digits|].
  destruct s as [|c r]; simpl; [reflexivity|].
  simpl in H. apply andb_true_iff in H. destruct H as [Hc _].
  now rewrite (digit_not_space c Hc).
Qed.

Lemma int_digits_value (s : string) :
  forall acc after_digit,
    all_digits s = true -> s <> "" \/ after_digit = true ->
    int_digits acc after_digit s = Some (decimal_value acc s).
Proof.
  induction s as [|c r IH]; simpl; intros acc b H Hne.
  - destruct Hne as [Hne|Hb]; [now contradiction Hne | now rewrite Hb].
  - apply andb_true_iff in H. destruct H as [Hc Hr].
    destruct (digit_not_mark c Hc) as (_ & _ & Hu). rewrite Hu, Hc.
    apply IH; [assumption | now right].
Qed.

Lemma digit_count_digits (s : string) :
  all_digits s = true -> digit_count s = String.length s.
Proof.
  induction s as [|c r IH]; simpl; intros H; [reflexivity|].
  apply andb_true_iff in H. destruct H as [Hc Hr]. now rewrite Hc, IH.
Qed.

Lemma int_sign_digits (s : string) :
  all_digits s = true -> int_sign s = (false, s).
Proof.
  destruct s as [|c r]; simpl; intros H; [reflexivity|].
  apply andb_true_iff in H. destruct H as [Hc _].
  destruct (digit_not_mark c Hc) as (Hp & Hm & _). now rewrite Hp, Hm.
Qed.

Lemma int_of_str_digits (s : string) :
  all_digits s = true -> s <> "" ->
  (String.length s <= int_max_str_digits)%nat ->
  int_of_str s = Ok (decimal_value 0 s).
Proof.
  intros H Hne Hlen. unfold int_of_str.
  rewrite (strip_digits s H), (int_sign_digits s H).
  rewrite int_digits_value; [| assumption | now left].
  rewrite (digit_count_digits s H).
  apply Nat.leb_le in Hlen. now rewrite Hlen.
Qed.

Lemma int_of_str_long (s : string) :
  all_digits s = true ->
  (int_max_str_digits < String.length s)%nat ->
  int_of_str s = Raise ValueError.
Proof.
  intros H Hlen. unfold int_of_str.
  rewrite (strip_digits s H), (int_sign_digits s H).
  destruct (int_digits 0 false s); [|reflexivity].
  rewrite (digit_count_digits s H).
  apply Nat.leb_gt in Hlen. now rewrite Hlen.
Qed.

Lemma int_of_str_raise (s : string) (e : exn) :
  int_of_str s = Raise e -> e = ValueError.
Proof.
  unfold int_of_str. destruct (int_sign (strip s)) as [negative digits].
  destruct (int_digits 0 false digits); [|congruence].
  destruct (digit_count digits <=? int_max_str_digits)%nat; congruence.
Qed.

Lemma keep_digits_all_digits (s : string) : all_digits (keep_digits s) = true.
Proof.
  induction s as [|c r IH]; simpl; [reflexivity|].
  destruct (is_digit c) eqn:Hc; simpl; [now rewrite Hc|assumption].
Qed.

Lemma price_conversion_digits (price : string) :
  all_digits (price_conversion price) = true.
Proof. rewrite price_conversion_spec. apply keep_digits_all_digits. Qed.

(** ** [create_prices] *)

Lemma listed_codes (feed : list watch) (offer_ids : list string) :
  map code (listed feed offer_ids)
  = filter (fun c => contains c offer_ids) (codes feed).
Proof.
  unfold listed, codes. induction feed as [|w rest IH]; simpl; [reflexivity|].
  destruct (contains (code w) offer_ids); simpl; now rewrite IH.
Qed.

Lemma seller_prices_loop (feed : list watch) (offer_ids : list string) :
  forall acc,
    Seller.create_prices_loop feed acc offer_ids
    = acc ++ map seller_price_of (listed feed offer_ids).
Proof.
  unfold listed. induction feed as [|w rest IH]; intros acc; simpl.
  - now rewrite app_nil_r.
  - fold (code w). destruct (contains (code w) offer_ids); simpl.
    + rewrite IH, <- app_assoc. reflexivity.
    + apply IH.
Qed.

Lemma seller_create_prices_eq (feed : list watch) (offer_ids : list string) :
  Seller.create_prices feed offer_ids = map seller_price_of (listed feed offer_ids).
Proof. unfold Seller.create_prices. now rewrite seller_prices_loop. Qed.

Lemma prices_readableb_ok (feed : list watch) (offer_ids : list string) :
  prices_readableb feed offer_ids = true -> prices_readable feed offer_ids.
Proof.
  unfold prices_readableb. rewrite forallb_forall.
  intros H w Hw Hc. specialize (H w Hw).
  apply contains_In in Hc. rewrite Hc in H. simpl in H.
  apply andb_true_iff in H. destruct H as [Hne Hlen].
  split.
  - now apply String.eqb_neq, negb_true_iff.
  - now apply Nat.leb_le.
Qed.

Lemma market_prices_loop (feed : list watch) (offer_ids : list string) :
  forall acc,
    prices_readable feed offer_ids ->
    Market.create_prices_loop feed acc offer_ids
    = Ok (acc ++ map market_price_of (listed feed offer_ids)).
Proof.
  unfold listed. induction feed as [|w rest IH]; intros acc Hd; simpl.
  - now rewrite app_nil_r.
  - assert (Hrest : prices_readable rest offer_ids).
    { intros w' Hw'. apply Hd. now right. }
    fold (code w). destruct (contains (code w) offer_ids) eqn:Hc; simpl.
    + destruct (Hd w) as [Hne Hlen]; [now left | now apply contains_In |].
      rewrite int_of_str_digits;
        [| apply price_conversion_digits | exact Hne | exact Hlen ].
      simpl. rewrite (IH _ Hrest), <- app_assoc. reflexivity.
    + now apply IH.
Qed.

Lemma market_prices_loop_raises (feed : list watch) (offer_ids : list string) :
  forall acc,
    (exists w, In w feed /\ In (code w) offer_ids /\ price_conversion (Tsena w) = "") ->
    Market.create_prices_loop feed acc offer_ids = Raise ValueError.
Proof.
  induction feed as [|w0 rest IH]; intros acc (w & Hw & Hc & Hp); [contradiction|].
  simpl. fold (code w0). destruct Hw as [Heq|Hw].
  - subst w0. apply contains_In in Hc. now rewrite Hc, Hp.
  - assert (Hex : exists w, In w rest /\ In (code w) offer_ids
                            /\ price_conversion (Tsena w) = "") by eauto.
    destruct (contains (code w0) offer_ids); [|now apply IH].
    destruct (int_of_str (price_conversion (Tsena w0))) as [v|e] eqn:Hv; simpl.
    + now apply IH.
    + apply int_of_str_raise in Hv. now subst e.
Qed.

(** C4, as amended.  In seller.py the codes of [create_prices] are, in
    feed order, exactly the feed codes that [offer_ids] holds, so a code
    has an entry if and only if it is in the feed and in [offer_ids].
    In market.py the same holds whenever every listed feed record has,
    before the first ['.'] of its price, at least one digit and at most
    4300 digits. *)
Theorem create_prices_exclusive (feed : list watch) (offer_ids : list string) :
  (map Seller.price_offer_id (Seller.create_prices feed offer_ids)
   = filter (fun c => contains c offer_ids) (codes feed)
   /\ forall c, In c (map Seller.price_offer_id (Seller.create_prices feed offer_ids))
                <-> In c (codes feed) /\ In c offer_ids)
  /\ (prices_readable feed offer_ids ->
      exists prices,
        Market.create_prices feed offer_ids = Ok prices
        /\ map Market.id prices = filter (fun c => contains c offer_ids) (codes feed)
        /\ forall c, In c (map Market.id prices)
                     <-> In c (codes feed) /\ In c offer_ids).
Proof.
  assert (Hs : map Seller.price_offer_id (Seller.create_prices feed offer_ids)
               = filter (fun c => contains c offer_ids) (codes feed)).
  { rewrite seller_create_prices_eq, map_map. simpl. apply listed_codes. }
  split; [split; [exact Hs|]|].
  - intros c. rewrite Hs, filter_In, contains_In. tauto.
  - intros Hd. exists (map market_price_of (listed feed offer_ids)).
    assert (Hm : map Market.id (map market_price_of (listed feed offer_ids))
                 = filter (fun c => contains c offer_ids) (codes feed)).
    { rewrite map_map. simpl. apply listed_codes. }
    split; [|split; [exact Hm|]].
    + unfold Market.create_prices. now rewrite market_prices_loop.
    + intros c. rewrite Hm, filter_In, contains_In. tauto.
Qed.

Lemma create_prices_exclusive_witness :
  exists prices,
    Market.create_prices
      [Watch (PyStr "123") (PyStr ">10") "1000.00 p.";
       Watch (PyStr "456") (PyStr "1") "2000.00 p.";
       Watch (PyStr "000") (PyStr "5") "руб."]
      ["123"; "456"; "789"]
    = Ok prices
    /\ map Market.id prices = ["123"; "456"].
Proof.
  destruct (proj2 (create_prices_exclusive
                     [Watch (PyStr "123") (PyStr ">10") "1000.00 p.";
                      Watch (PyStr "456") (PyStr "1") "2000.00 p.";
                      Watch (PyStr "000") (PyStr "5") "руб."]
                     ["123"; "456"; "789"]))
    as (prices & Hp & Hc & _).
  - apply prices_readableb_ok. reflexivity.
  - exists prices. split; [exact Hp | exact Hc].
Defined.

(** C4 as stated fails in market.py: a listed record whose price has no
    digit before the first ['.'] makes [create_prices] raise, so the code,
    present in the feed and in [offer_ids], gets no entry. *)
Lemma market_create_prices_raises :
  In "123" (codes [Watch (PyStr "123") (PyStr ">10") "руб."]) /\
  In "123" ["123"] /\
  Market.create_prices [Watch (PyStr "123") (PyStr ">10") "руб."] ["123"]
  = Raise ValueError /\
  ~ exists prices,
      Market.create_prices [Watch (PyStr "123") (PyStr ">10") "руб."] ["123"]
      = Ok prices
      /\ In "123" (map Market.id prices).
Proof.
  split; [now left|]. split; [now left|]. split; [reflexivity|].
  intros (prices & H & _). discriminate H.
Qed.

(** C7, as amended.  For a listed feed record whose normalised price is
    empty, [create_prices] of seller.py raises nothing and returns a list
    holding the entry of that record with the empty string as its price;
    [create_prices] of market.py raises [ValueError] for the whole call. *)
Theorem create_prices_empty_price (feed : list watch) (offer_ids : list string)
    (w : watch) :
  In w feed -> In (code w) offer_ids -> price_conversion (Tsena w) = "" ->
  In (Seller.PriceEntry "UNKNOWN" "RUB" (code w) "0" "")
     (Seller.create_prices feed offer_ids)
  /\ Market.create_prices feed offer_ids = Raise ValueError.
Proof.
  intros Hw Hc Hp. split.
  - rewrite seller_create_prices_eq. apply in_map_iff. exists w. split.
    + unfold seller_price_of. now rewrite Hp.
    + apply filter_In. split; [assumption | now apply contains_In].
  - unfold Market.create_prices. apply market_prices_loop_raises. eauto.
Qed.

Lemma create_prices_empty_price_witness :
  In (Seller.PriceEntry "UNKNOWN" "RUB" "456" "0" "")
     (Seller.create_prices
        [Watch (PyStr "123") (PyStr ">10") "1000.00 p.";
         Watch (PyInt 456) (PyStr "1") "руб."]
        ["123"; "456"; "789"])
  /\ Market.create_prices
       [Watch (PyStr "123") (PyStr ">10") "1000.00 p.";
        Watch (PyInt 456) (PyStr "1") "руб."]
       ["123"; "456"; "789"]
     = Raise ValueError.
Proof.
  apply (create_prices_empty_price
           [Watch (PyStr "123") (PyStr ">10") "1000.00 p.";
            Watch (PyInt 456) (PyStr "1") "руб."]
           ["123"; "456"; "789"]
           (Watch (PyInt 456) (PyStr "1") "руб.")).
  - simpl. right. left. reflexivity.
  - simpl. right. left. reflexivity.
  - reflexivity.
Defined.

(** C7 as stated fails in seller.py: the record with the price "руб." is
    listed, its normalised price is empty, and [create_prices] returns an
    entry carrying that empty price instead of raising. *)
Lemma seller_emits_empty_price :
  price_conversion "руб." = "" /\
  Seller.create_prices [Watch (PyStr "123") (PyStr ">10") "руб."] ["123"]
  = [Seller.PriceEntry "UNKNOWN" "RUB" "123" "0" ""].
Proof. split; reflexivity. Qed.

(** ** [divide] *)

Lemma firstn_plus {A} (a b : nat) (l : list A) :
  firstn (a + b) l = firstn a l ++ firstn b (skipn a l).
Proof.
  revert l. induction a as [|a IH]; intros l; simpl; [reflexivity|].
  destruct l as [|x l]; simpl.
  - now rewrite firstn_nil.
  - now rewrite IH.
Qed.

Lemma concat_pieces {A} (size : nat) (lst : list A) (m : nat) :
  List.concat (pieces size lst m) = firstn (m * size) lst.
Proof.
  unfold pieces. induction m as [|m IH]; [reflexivity|].
  rewrite seq_S, map_app, concat_app, IH. simpl.
  rewrite app_nil_r, <- firstn_plus. f_equal. lia.
Qed.

Lemma slice_piece {A} (lst : list A) (i n : Z) :
  0 <= i <= Z.of_nat (List.length lst) -> 0 < n ->
  slice lst i (i + n) = firstn (Z.to_nat n) (skipn (Z.to_nat i) lst).
Proof.
  intros Hi Hn. unfold slice, slice_bound.
  destruct (Z.ltb_spec i 0) as [?|_]; [lia|].
  destruct (Z.ltb_spec (i + n) 0) as [?|_]; [lia|].
  rewrite (Z.min_l i) by lia.
  destruct (Z.le_ge_cases (i + n) (Z.of_nat (List.length lst))) as [Hle|Hge].
  - rewrite Z.min_l by lia. f_equal. lia.
  - rewrite Z.min_r by lia.
    rewrite !firstn_all2; [reflexivity | |]; rewrite length_skipn; lia.
Qed.

Lemma range_len_bounds (len : nat) (n : Z) :
  0 < n ->
  (len <= range_len 0 (Z.of_nat len) n * Z.to_nat n)%nat /\
  (forall k, (S k < range_len 0 (Z.of_nat len) n)%nat ->
             (S k * Z.to_nat n <= len)%nat) /\
  (forall k, (k < range_len 0 (Z.of_nat len) n)%nat ->
             (k * Z.to_nat n < len)%nat).
Proof.
  intros Hn. unfold range_len.
  destruct (Z.ltb_spec 0 n) as [_|?]; [|lia].
  destruct (Z.ltb_spec 0 (Z.of_nat len)) as [Hpos|Hz].
  - replace (Z.of_nat len - 0 - 1) with (Z.of_nat len - 1) by lia.
    pose proof (Z.div_pos (Z.of_nat len - 1) n ltac:(lia) Hn) as Hq.
    pose proof (Z.mul_div_le (Z.of_nat len - 1) n Hn) as Hlo.
    pose proof (Z.mul_succ_div_gt (Z.of_nat len - 1) n Hn) as Hhi.
    set (q := (Z.of_nat len - 1) / n) in *.
    assert (Hm : Z.of_nat (Z.to_nat (q + 1)) = q + 1) by lia.
    assert (HN : Z.of_nat (Z.to_nat n) = n) by lia.
    repeat split.
    + apply Nat2Z.inj_le. rewrite Nat2Z.inj_mul, Hm, HN. nia.
    + intros k Hk. apply Nat2Z.inj_le. rewrite Nat2Z.inj_mul, HN.
      assert (Z.of_nat (S k) <= q) by lia. nia.
    + intros k Hk. apply Nat2Z.inj_lt. rewrite Nat2Z.inj_mul, HN.
      assert (Z.of_nat k <= q) by lia. nia.
  - repeat split; intros; lia.
Qed.

Lemma divide_pieces {A} (lst : list A) (n : Z) :
  0 < n ->
  divide lst n
  = Ok (pieces (Z.to_nat n) lst (range_len 0 (Z.of_nat (List.length lst)) n)).
Proof.
  intros Hn. unfold divide, range.
  destruct (Z.eqb_spec n 0) as [?|_]; [lia|]. simpl.
  unfold pieces. rewrite map_map. f_equal. apply map_ext_in.
  intros k Hk. apply in_seq in Hk.
  destruct (range_len_bounds (List.length lst) n Hn) as (_ & _ & Hlt).
  specialize (Hlt k ltac:(lia)).
  rewrite slice_piece; [| nia | assumption].
  f_equal. f_equal. rewrite Z2Nat.inj_mul by lia. now rewrite Nat2Z.id.
Qed.

Lemma pieces_batches {A} (lst : list A) (n : Z) :
  0 < n ->
  batches_of (Z.to_nat n) lst
    (pieces (Z.to_nat n) lst (range_len 0 (Z.of_nat (List.length lst)) n)).
Proof.
  intros Hn.
  destruct (range_len_bounds (List.length lst) n Hn) as (Hall & Hfull & Hlt).
  set (m := range_len 0 (Z.of_nat (List.length lst)) n) in *.
  split.
  - rewrite concat_pieces. now apply firstn_all2.
  - intros i chunk Hi. unfold pieces in *.
    rewrite nth_error_map, nth_error_seq in Hi.
    destruct (Nat.ltb_spec i m) as [Him|?]; [|discriminate].
    simpl in Hi. inversion Hi; subst chunk; clear Hi.
    rewrite length_map, length_seq, length_firstn, length_skipn.
    specialize (Hlt i Him). split; [lia|].
    intros Hnext. specialize (Hfull i Hnext). simpl in Hfull. lia.
Qed.

(** C8.  For a positive chunk size [divide] returns chunks of at most [n]
    items, all but the last of exactly [n] and none empty, whose
    concatenation is the input; [divide([1,2,3,4,5], 2)] gives
    [[1,2],[3,4],[5]] and an empty list gives no chunk. *)
Theorem divide_partitions :
  (forall (A : Type) (lst : list A) (n : Z),
      0 < n ->
      exists chunks,
        divide lst n = Ok chunks
        /\ List.concat chunks = lst
        /\ Forall (fun chunk => Z.of_nat (List.length chunk) <= n) chunks
        /\ batches_of (Z.to_nat n) lst chunks)
  /\ divide [1; 2; 3; 4; 5] 2 = Ok [[1; 2]; [3; 4]; [5]]
  /\ (forall A : Type, divide (@nil A) 2 = Ok []).
Proof.
  split; [|split; reflexivity].
  intros A lst n Hn. eexists. split; [now apply divide_pieces|].
  pose proof (pieces_batches lst n Hn) as Hb.
  split; [exact (proj1 Hb)|]. split; [|exact Hb].
  apply Forall_forall. intros chunk Hin.
  apply In_nth_error in Hin. destruct Hin as [i Hi].
  destruct (proj2 Hb i chunk Hi) as [Hlen _]. lia.
Qed.

Lemma divide_partitions_witness :
  exists chunks,
    divide ["a"; "b"; "c"; "d"; "e"; "f"; "g"] 3 = Ok chunks
    /\ List.concat chunks = ["a"; "b"; "c"; "d"; "e"; "f"; "g"]
    /\ Forall (fun chunk => Z.of_nat (List.length chunk) <= 3) chunks.
Proof.
  destruct (proj1 divide_partitions string
              ["a"; "b"; "c"; "d"; "e"; "f"; "g"] 3)
    as (chunks & Hd & Hc & Hf & _).
  - reflexivity.
  - exists chunks. repeat split; assumption.
Defined.

(** C9, as amended.  With chunk size 0 [divide] raises the [ValueError]
    of [range]; with a negative chunk size it raises nothing and yields
    no chunk, whatever the list. *)
Theorem divide_non_positive (A : Type) (lst : list A) :
  divide lst 0 = Raise ValueError
  /\ (forall n, n < 0 -> divide lst n = Ok []).
Proof.
  split; [reflexivity|].
  intros n Hn. unfold divide, range, range_len.
  destruct (Z.eqb_spec n 0) as [?|_]; [lia|].
  destruct (Z.ltb_spec 0 n) as [?|_]; [lia|].
  destruct (Z.ltb_spec (Z.of_nat (List.length lst)) 0) as [?|_]; [lia|].
  reflexivity.
Qed.

Lemma divide_non_positive_witness : divide [1; 2; 3] (-2) = Ok [].
Proof. apply (proj2 (divide_non_positive Z [1; 2; 3]) (-2)). lia. Defined.

(** C9 as stated fails: with chunk size -1 the call on a list of three
    items ends normally with an empty sequence. *)
Lemma divide_negative_yields_nothing :
  -1 <= 0 /\ divide [1; 2; 3] (-1) = Ok [] /\
  divide [1; 2; 3] (-1) <> Raise ValueError.
Proof. split; [lia|]. split; [reflexivity | discriminate]. Qed.

(** ** Requests issued by a loop over chunks *)

Section Sending.
Context {R A : Type} (http : list R -> R -> option exn) (mk : A -> R).

Lemma for_each_request_ok (items : list A) :
  always_ok http ->
  forall sent,
    for_each items (fun x => request http (mk x)) sent
    = (Ok tt, sent ++ map mk items).
Proof.
  intros Hok. induction items as [|x rest IH]; intros sent; simpl.
  - unfold io_ret. now rewrite app_nil_r.
  - unfold io_bind, request. rewrite Hok, IH, <- app_assoc. reflexivity.
Qed.

Lemma for_each_request_prefix (items : list A) :
  forall sent, exists k,
    snd (for_each items (fun x => request http (mk x)) sent)
    = sent ++ map mk (firstn k items).
Proof.
  induction items as [|x rest IH]; intros sent; simpl.
  - exists 0%nat. simpl. now rewrite app_nil_r.
  - unfold io_bind, request. destruct (http sent (mk x)) as [e|].
    + exists 1%nat. reflexivity.
    + destruct (IH (sent ++ [mk x])) as [k Hk]. exists (S k).
      transitivity ((sent ++ [mk x]) ++ map mk (firstn k rest));
        [exact Hk | now rewrite <- app_assoc].
Qed.
End Sending.

(** ** The full synchronisation of seller.py *)

Lemma filter_none {A} (f : A -> bool) (l : list A) :
  (forall x, In x l -> f x = false) -> filter f l = [].
Proof.
  induction l as [|a l IH]; simpl; intros H; [reflexivity|].
  rewrite (H a) by now left. apply IH. intros x Hx. apply H. now right.
Qed.

Lemma listed_channel_only (feed : list watch) (offer_ids : list string) :
  listed feed (channel_only feed offer_ids) = [].
Proof.
  unfold listed, channel_only. apply filter_none. intros w Hw.
  rewrite contains_filter.
  assert (Hc : contains (code w) (codes feed) = true).
  { apply contains_In. unfold codes. now apply in_map. }
  rewrite Hc. apply andb_false_r.
Qed.

Lemma seller_create_stocks_left (feed : list watch) (offer_ids : list string)
    (stocks : list Seller.stock_entry) (left : list string) :
  NoDup offer_ids ->
  Seller.create_stocks feed offer_ids = (Ok stocks, left) ->
  left = channel_only feed offer_ids.
Proof.
  intros Hnd H. unfold Seller.create_stocks in H. rewrite seller_loop_eq in H.
  destruct (stocks_loop seller_entry feed [] offer_ids) as [[s|e] l] eqn:Hl;
    [|discriminate].
  inversion H; subst. eapply stocks_loop_left; eassumption.
Qed.

Lemma seller_price_calls_stocks (chunks : list (list Seller.stock_entry)) :
  seller_price_calls (map Seller.update_stocks chunks) = [].
Proof. induction chunks; simpl; [reflexivity | assumption]. Qed.

Lemma seller_main_try_run (http : list Seller.call -> Seller.call -> option exn)
    (feed : list watch) (offer_ids : list string) :
  NoDup offer_ids ->
  exists k chunks,
    snd (Seller.main_try http feed offer_ids [])
    = map Seller.update_stocks (firstn k chunks)
    /\ forall stocks prices sent,
         Seller.main_try http feed offer_ids [] = (Ok (stocks, prices), sent) ->
         prices = [].
Proof.
  intros Hnd. unfold Seller.main_try.
  destruct (Seller.create_stocks feed offer_ids) as [[stocks|e] left] eqn:Hc.
  - pose proof (seller_create_stocks_left _ _ _ _ Hnd Hc) as Hleft.
    assert (Hp : Seller.create_prices feed left = []).
    { rewrite Hleft, seller_create_prices_eq, listed_channel_only. reflexivity. }
    set (chunks := pieces (Z.to_nat 100) stocks
                     (range_len 0 (Z.of_nat (List.length stocks)) 100)).
    destruct (for_each_request_prefix http Seller.update_stocks chunks [])
      as [k Hk].
    exists k, chunks.
    unfold io_bind, io_lift, io_ret. cbv beta iota zeta.
    rewrite (divide_pieces stocks 100) by lia. fold chunks. cbv beta iota.
    destruct (for_each chunks
                (fun some_stock => request http (Seller.update_stocks some_stock)) [])
      as [[[]|e] sent] eqn:Hrun; simpl in Hk; subst sent.
    + rewrite Hp. simpl. split; [reflexivity|].
      intros stocks' prices sent H. inversion H. reflexivity.
    + split; [reflexivity|]. intros stocks' prices sent H. discriminate H.
  - exists 0%nat, []. split; [reflexivity|].
    intros stocks' prices sent H. discriminate H.
Qed.

(** C3.  For a duplicate-free [offer_ids], whenever [create_stocks] of
    seller.py has returned, [create_prices] on the list it leaves behind
    returns the empty list; hence a run of [main] that reaches the price
    step builds no price entry, and no run of [main] issues a price
    request. *)
Theorem full_sync_prices_empty (feed : list watch) (offer_ids : list string) :
  NoDup offer_ids ->
  (forall stocks left,
      Seller.create_stocks feed offer_ids = (Ok stocks, left) ->
      Seller.create_prices feed left = [])
  /\ (forall http stocks prices sent,
        Seller.main_try http feed offer_ids [] = (Ok (stocks, prices), sent) ->
        prices = [])
  /\ (forall http, seller_price_calls (Seller.main http feed offer_ids) = []).
Proof.
  intros Hnd. split; [|split].
  - intros stocks left H.
    rewrite (seller_create_stocks_left _ _ _ _ Hnd H).
    now rewrite seller_create_prices_eq, listed_channel_only.
  - intros http.
    destruct (seller_main_try_run http feed offer_ids Hnd) as (k & chunks & _ & H).
    exact H.
  - intros http. unfold Seller.main.
    destruct (seller_main_try_run http feed offer_ids Hnd) as (k & chunks & H & _).
    rewrite H. apply seller_price_calls_stocks.
Qed.

Lemma full_sync_prices_empty_witness :
  Seller.create_prices
    [Watch (PyStr "123") (PyStr ">10") "1000.00 p.";
     Watch (PyStr "456") (PyStr "1") "2000.00 p."]
    ["789"]
  = []
  /\ seller_price_calls
       (Seller.main (fun _ _ => None)
          [Watch (PyStr "123") (PyStr ">10") "1000.00 p.";
           Watch (PyStr "456") (PyStr "1") "2000.00 p."]
          ["123"; "456"; "789"])
     = [].
Proof.
  destruct (full_sync_prices_empty
              [Watch (PyStr "123") (PyStr ">10") "1000.00 p.";
               Watch (PyStr "456") (PyStr "1") "2000.00 p."]
              ["123"; "456"; "789"]) as (H1 & _ & H3).
  - apply nodupb_NoDup. reflexivity.
  - split.
    + apply (H1 [Seller.StockEntry "123" 100; Seller.StockEntry "456" 0;
                 Seller.StockEntry "789" 0]).
      reflexivity.
    + apply H3.
Defined.

(** ** Batch sizes of the upload drivers *)

Section SellerUploads.
Variable http : list Seller.call -> Seller.call -> option exn.
Hypothesis http_ok : always_ok http.

Lemma seller_upload_stocks_run (feed : list watch) (offer_ids : list string)
    (stocks : list Seller.stock_entry) (left : list string) :
  Seller.create_stocks feed offer_ids = (Ok stocks, left) ->
  snd (Seller.upload_stocks http feed offer_ids [])
  = map Seller.update_stocks
      (pieces (Z.to_nat 100) stocks
         (range_len 0 (Z.of_nat (List.length stocks)) 100)).
Proof.
  intros Hc. unfold Seller.upload_stocks. rewrite Hc. run_io.
  rewrite (divide_pieces stocks 100) by lia. cbv beta iota.
  rewrite (for_each_request_ok http Seller.update_stocks _ http_ok).
  reflexivity.
Qed.

Lemma seller_upload_prices_run (feed : list watch) (offer_ids : list string) :
  snd (Seller.upload_prices http feed offer_ids [])
  = map Seller.update_price
      (pieces (Z.to_nat 1000) (Seller.create_prices feed offer_ids)
         (range_len 0
            (Z.of_nat (List.length (Seller.create_prices feed offer_ids))) 1000)).
Proof.
  unfold Seller.upload_prices. run_io.
  rewrite (divide_pieces (Seller.create_prices feed offer_ids) 1000) by lia.
  cbv beta iota.
  rewrite (for_each_request_ok http Seller.update_price _ http_ok).
  reflexivity.
Qed.

Lemma seller_main_run (feed : list watch) (offer_ids : list string)
    (stocks : list Seller.stock_entry) (left : list string) :
  Seller.create_stocks feed offer_ids = (Ok stocks, left) ->
  Seller.main http feed offer_ids
  = map Seller.update_stocks
      (pieces (Z.to_nat 100) stocks
         (range_len 0 (Z.of_nat (List.length stocks)) 100))
    ++ map Seller.update_price
         (pieces (Z.to_nat 900) (Seller.create_prices feed left)
            (range_len 0
               (Z.of_nat (List.length (Seller.create_prices feed left))) 900)).
Proof.
  intros Hc. unfold Seller.main, Seller.main_try. rewrite Hc. run_io.
  rewrite (divide_pieces stocks 100) by lia. cbv beta iota.
  rewrite (for_each_request_ok http Seller.update_stocks _ http_ok).
  cbv beta iota.
  rewrite (divide_pieces (Seller.create_prices feed left) 900) by lia.
  cbv beta iota.
  rewrite (for_each_request_ok http Seller.update_price _ http_ok).
  reflexivity.
Qed.
End SellerUploads.

Section MarketUploads.
Variable http : list Market.call -> Market.call -> option exn.
Hypothesis http_ok : always_ok http.

Lemma market_upload_stocks_run (date : string) (feed : list watch)
    (offer_ids : list string) (warehouse_id : string)
    (stocks : list Market.stock_entry) (left : list string) :
  Market.create_stocks date feed offer_ids warehouse_id = (Ok stocks, left) ->
  snd (Market.upload_stocks http date feed offer_ids warehouse_id [])
  = map Market.update_stocks
      (pieces (Z.to_nat 2000) stocks
         (range_len 0 (Z.of_nat (List.length stocks)) 2000)).
Proof.
  intros Hc. unfold Market.upload_stocks. rewrite Hc. run_io.
  rewrite (divide_pieces stocks 2000) by lia. cbv beta iota.
  rewrite (for_each_request_ok http Market.update_stocks _ http_ok).
  reflexivity.
Qed.

Lemma market_upload_prices_run (feed : list watch) (offer_ids : list string)
    (prices : list Market.price_entry) :
  Market.create_prices feed offer_ids = Ok prices ->
  snd (Market.upload_prices http feed offer_ids [])
  = map Market.update_price
      (pieces (Z.to_nat 500) prices
         (range_len 0 (Z.of_nat (List.length prices)) 500)).
Proof.
  intros Hc. unfold Market.upload_prices. rewrite Hc. run_io.
  rewrite (divide_pieces prices 500) by lia. cbv beta iota.
  rewrite (for_each_request_ok http Market.update_price _ http_ok).
  reflexivity.
Qed.
End MarketUploads.

(** C10.  With a server that answers every request, each driver issues
    one request per chunk, in order, and the chunks cut its entries at
    the stated limit: 100 for seller stocks ([upload_stocks] and [main]),
    900 for seller prices in [main], 1000 for seller prices in
    [upload_prices], 2000 for market stocks and 500 for market prices.
    With 2500 market stock entries the requests carry 2000 and then 500
    entries. *)
Theorem upload_batch_sizes
    (seller_http : list Seller.call -> Seller.call -> option exn)
    (market_http : list Market.call -> Market.call -> option exn) :
  always_ok seller_http -> always_ok market_http ->
  (forall feed offer_ids stocks left,
      Seller.create_stocks feed offer_ids = (Ok stocks, left) ->
      exists chunks,
        snd (Seller.upload_stocks seller_http feed offer_ids [])
        = map Seller.update_stocks chunks
        /\ batches_of 100 stocks chunks)
  /\ (forall feed offer_ids stocks left,
        Seller.create_stocks feed offer_ids = (Ok stocks, left) ->
        exists stock_chunks price_chunks,
          Seller.main seller_http feed offer_ids
          = map Seller.update_stocks stock_chunks
            ++ map Seller.update_price price_chunks
          /\ batches_of 100 stocks stock_chunks
          /\ batches_of 900 (Seller.create_prices feed left) price_chunks)
  /\ (forall feed offer_ids,
        exists chunks,
          snd (Seller.upload_prices seller_http feed offer_ids [])
          = map Seller.update_price chunks
          /\ batches_of 1000 (Seller.create_prices feed offer_ids) chunks)
  /\ (forall date feed offer_ids warehouse_id stocks left,
        Market.create_stocks date feed offer_ids warehouse_id = (Ok stocks, left) ->
        exists chunks,
          snd (Market.upload_stocks market_http date feed offer_ids warehouse_id [])
          = map Market.update_stocks chunks
          /\ batches_of 2000 stocks chunks)
  /\ (forall feed offer_ids prices,
        Market.create_prices feed offer_ids = Ok prices ->
        exists chunks,
          snd (Market.upload_prices market_http feed offer_ids [])
          = map Market.update_price chunks
          /\ batches_of 500 prices chunks)
  /\ (forall date feed offer_ids warehouse_id stocks left,
        Market.create_stocks date feed offer_ids warehouse_id = (Ok stocks, left) ->
        List.length stocks = 2500%nat ->
        market_sizes
          (snd (Market.upload_stocks market_http date feed offer_ids warehouse_id []))
        = [2000; 500]%nat).
Proof.
  intros Hs Hm. split; [|split; [|split; [|split; [|split]]]].
  - intros feed ids stocks left Hc. eexists. split.
    + apply (seller_upload_stocks_run _ Hs _ _ _ _ Hc).
    + apply (pieces_batches stocks 100). lia.
  - intros feed ids stocks left Hc. eexists. eexists. split; [|split].
    + apply (seller_main_run _ Hs _ _ _ _ Hc).
    + apply (pieces_batches stocks 100). lia.
    + apply (pieces_batches (Seller.create_prices feed left) 900). lia.
  - intros feed ids. eexists. split.
    + apply (seller_upload_prices_run _ Hs).
    + apply (pieces_batches (Seller.create_prices feed ids) 1000). lia.
  - intros date feed ids wh stocks left Hc. eexists. split.
    + apply (market_upload_stocks_run _ Hm _ _ _ _ _ _ Hc).
    + apply (pieces_batches stocks 2000). lia.
  - intros feed ids prices Hc. eexists. split.
    + apply (market_upload_prices_run _ Hm _ _ _ Hc).
    + apply (pieces_batches prices 500). lia.
  - intros date feed ids wh stocks left Hc Hlen.
    rewrite (market_upload_stocks_run _ Hm _ _ _ _ _ _ Hc), Hlen.
    replace (range_len 0 (Z.of_nat 2500) 2000) with 2%nat
      by (vm_compute; reflexivity).
    unfold pieces, market_sizes. cbn [seq map].
    rewrite !length_firstn, !length_skipn, Hlen.
    vm_compute. reflexivity.
Qed.

Lemma upload_batch_sizes_witness :
  market_sizes
    (snd (Market.upload_stocks (fun _ _ => None) "2026-01-01T00:00:00Z"
            [] sample_offer_ids "warehouse" []))
  = [2000; 500]%nat.
Proof.
  refine (proj2 (proj2 (proj2 (proj2 (proj2
            (upload_batch_sizes (fun _ _ => None) (fun _ _ => None) _ _)))))
            "2026-01-01T00:00:00Z" [] sample_offer_ids "warehouse"
            (map (fun c => market_entry "warehouse" "2026-01-01T00:00:00Z" c 0)
                 sample_offer_ids)
            sample_offer_ids _ _).
  - intros sent r. reflexivity.
  - intros sent r. reflexivity.
  - vm_compute. reflexivity.
  - vm_compute. reflexivity.
Defined.

(** ** Quantity normalisation *)

Lemma int_digits_bad (c : ascii) (s : string) :
  forall acc after_digit,
    In c (list_ascii_of_string s) ->
    is_digit c = false -> Ascii.eqb c "_" = false ->
    int_digits acc after_digit s = None.
Proof.
  induction s as [|a r IH]; simpl; intros acc b Hin Hd Hu; [contradiction|].
  destruct Hin as [Heq|Hin].
  - subst a. now rewrite Hu, Hd.
  - destruct (Ascii.eqb a "_").
    + destruct b; [now apply IH | reflexivity].
    + destruct (is_digit a); [now apply IH | reflexivity].
Qed.

Lemma lstrip_keeps (c : ascii) (s : string) :
  In c (list_ascii_of_string s) -> is_space c = false ->
  In c (list_ascii_of_string (lstrip s)).
Proof.
  induction s as [|a r IH]; simpl; intros Hin Hs; [contradiction|].
  destruct (is_space a) eqn:Ha; [|exact Hin].
  destruct Hin as [Heq|Hin]; [subst a; congruence | now apply IH].
Qed.

Lemma rstrip_keeps (c : ascii) (s : string) :
  In c (list_ascii_of_string s) -> is_space c = false ->
  In c (list_ascii_of_string (rstrip s)).
Proof.
  induction s as [|a r IH]; simpl; intros Hin Hs; [contradiction|].
  destruct Hin as [Heq|Hin].
  - subst a. destruct (rstrip r); [rewrite Hs|]; now left.
  - specialize (IH Hin Hs). destruct (rstrip r); [contradiction|].
    now right.
Qed.

Lemma int_sign_parts (body : string) (negative : bool) (digits : string) :
  int_sign body = (negative, digits) ->
  exists sign,
    body = (sign ++ digits)%string
    /\ (sign = "" /\ negative = false
        \/ sign = "+" /\ negative = false
        \/ sign = "-" /\ negative = true).
Proof.
  unfold int_sign. destruct body as [|c r].
  - intros H. inversion H; subst. exists "". split; [reflexivity | now left].
  - destruct (Ascii.eqb_spec c "+") as [->|Hp].
    + intros H. inversion H; subst. exists "+". split; [reflexivity | tauto].
    + destruct (Ascii.eqb_spec c "-") as [->|Hm]; intros H; inversion H; subst.
      * exists "-". split; [reflexivity | tauto].
      * exists "". split; [reflexivity | tauto].
Qed.

Lemma int_of_str_bad (s : string) (c : ascii) :
  In c (list_ascii_of_string s) -> is_literal_char c = false ->
  int_of_str s = Raise ValueError.
Proof.
  intros Hin Hl. unfold is_literal_char in Hl.
  repeat (apply orb_false_iff in Hl; destruct Hl as [Hl ?]).
  assert (Hb : In c (list_ascii_of_string (strip s))).
  { unfold strip. apply rstrip_keeps; [apply lstrip_keeps|]; assumption. }
  unfold int_of_str.
  destruct (int_sign (strip s)) as [negative digits] eqn:Hsign.
  destruct (int_sign_parts _ _ _ Hsign) as (sign & Hbody & Hcases).
  assert (Hd : In c (list_ascii_of_string digits)).
  { rewrite Hbody in Hb.
    destruct Hcases as [[-> _]|[[-> _]|[-> _]]]; simpl in Hb; [exact Hb| |];
      (destruct Hb as [Heq|Hb]; [|exact Hb]); subst c; discriminate. }
  now rewrite (int_digits_bad c digits 0 false Hd).
Qed.

Lemma stock_of_count_other (s : string) :
  s <> ">10" -> s <> "1" -> stock_of_count (PyStr s) = int_of_str s.
Proof.
  intros H1 H2. unfold stock_of_count. simpl.
  apply String.eqb_neq in H1. apply String.eqb_neq in H2. now rewrite H1, H2.
Qed.

Lemma digits_not_sentinel (s : string) : all_digits s = true -> s <> ">10".
Proof. intros H Heq. subst s. discriminate H. Qed.

(** *** The parser against the grammar of literals *)

Lemma int_digits_grammar (s : string) :
  forall acc started n,
    int_digits acc started s = Some n <->
    exists digits,
      digits_with_underscores started s digits /\ n = decimal_value acc digits.
Proof.
  induction s as [|c r IH]; intros acc b n; simpl.
  - split.
    + destruct b; [|discriminate]. intros H. inversion H; subst.
      exists "". split; [constructor | reflexivity].
    + intros (ds & Hg & ->). inversion Hg; subst. reflexivity.
  - split.
    + destruct (Ascii.eqb_spec c "_") as [->|Hu].
      * destruct b; [|discriminate]. intros H. apply IH in H.
        destruct H as (ds & Hg & ->). exists ds. split; [now constructor | reflexivity].
      * destruct (is_digit c) eqn:Hc; [|discriminate]. intros H. apply IH in H.
        destruct H as (ds & Hg & ->). exists (String c ds).
        split; [now constructor | reflexivity].
    + intros (ds & Hg & ->). inversion Hg; subst.
      * destruct (digit_not_mark c H2) as (_ & _ & Hu). rewrite Hu, H2.
        apply IH. now exists digits.
      * simpl. apply IH. now exists ds.
Qed.

Lemma digits_with_underscores_count (started : bool) (s digits : string) :
  digits_with_underscores started s digits ->
  digit_count s = String.length digits.
Proof.
  induction 1 as [|b c text ds Hc _ IH|text ds _ IH]; simpl;
    [reflexivity | now rewrite Hc, IH | exact IH].
Qed.

Lemma digits_with_underscores_head (s digits : string) :
  digits_with_underscores false s digits ->
  exists c r, s = String c r /\ is_digit c = true.
Proof. intros H. inversion H; subst. now exists c, text. Qed.

Lemma rstrip_digits_with_underscores (started : bool) (s digits : string) :
  digits_with_underscores started s digits -> rstrip s = s.
Proof.
  induction 1 as [|b c text ds Hc _ IH|text ds Hg IH]; simpl; [reflexivity| |].
  - rewrite IH. destruct text; [|reflexivity].
    now rewrite (digit_not_space c Hc).
  - rewrite IH. destruct (digits_with_underscores_head _ _ Hg) as (c & r & -> & _).
    reflexivity.
Qed.

Lemma lstrip_blank_app (blank s : string) :
  all_space blank = true -> lstrip (blank ++ s) = lstrip s.
Proof.
  induction blank as [|c r IH]; simpl; intros H; [reflexivity|].
  apply andb_true_iff in H. destruct H as [Hc Hr]. now rewrite Hc, IH.
Qed.

Lemma rstrip_blank (blank : string) : all_space blank = true -> rstrip blank = "".
Proof.
  induction blank as [|c r IH]; simpl; intros H; [reflexivity|].
  apply andb_true_iff in H. destruct H as [Hc Hr]. now rewrite (IH Hr), Hc.
Qed.

Lemma rstrip_app_blank (s blank : string) :
  all_space blank = true -> rstrip (s ++ blank) = rstrip s.
Proof.
  intros H. induction s as [|c r IH]; simpl; [now apply rstrip_blank|].
  now rewrite IH.
Qed.

Lemma lstrip_blank_split (s : string) :
  exists blank, s = (blank ++ lstrip s)%string /\ all_space blank = true.
Proof.
  induction s as [|c r (blank & Hs & Hb)]; simpl.
  - now exists "".
  - destruct (is_space c) eqn:Hc.
    + exists (String c blank). simpl. rewrite Hc, Hb. split; [now f_equal | reflexivity].
    + now exists "".
Qed.

Lemma rstrip_blank_split (s : string) :
  exists blank, s = (rstrip s ++ blank)%string /\ all_space blank = true.
Proof.
  induction s as [|c r (blank & Hs & Hb)]; simpl.
  - now exists "".
  - destruct (rstrip r) as [|c' r'] eqn:Hr.
    + simpl in Hs. subst r. destruct (is_space c) eqn:Hc.
      * exists (String c blank). simpl. now rewrite Hc, Hb.
      * now exists blank.
    + exists blank. simpl. split; [now f_equal | assumption].
Qed.

(** [int_of_str] accepts exactly the literals, with their value. *)
Lemma int_of_str_literal (s : string) (v : Z) :
  int_of_str s = Ok v <-> is_int_literal s v.
Proof.
  split.
  - unfold int_of_str. intros H.
    destruct (int_sign (strip s)) as [negative digs] eqn:Hsign.
    destruct (int_digits 0 false digs) as [z|] eqn:Hz; [|discriminate].
    destruct (Nat.leb_spec (digit_count digs) int_max_str_digits) as [Hlen|?];
      [|discriminate].
    inversion H; subst v; clear H.
    apply int_digits_grammar in Hz. destruct Hz as (ds & Hg & ->).
    rewrite (digits_with_underscores_count _ _ _ Hg) in Hlen.
    destruct (int_sign_parts _ _ _ Hsign) as (sign & Hbody & Hcases).
    destruct (lstrip_blank_split s) as (before & Hs1 & Hb1).
    destruct (rstrip_blank_split (lstrip s)) as (after & Hs2 & Hb2).
    fold (strip s) in Hs2. rewrite Hbody in Hs2.
    exists before, sign, digs, after, ds.
    split; [|split; [exact Hb1|split; [exact Hb2|split; [|split; [exact Hg|split; [exact Hlen|]]]]]].
    + rewrite Hs1 at 1. rewrite Hs2. f_equal.
      destruct Hcases as [[-> _]|[[-> _]|[-> _]]]; reflexivity.
    + tauto.
    + destruct Hcases as [[-> ->]|[[-> ->]|[-> ->]]]; reflexivity.
  - intros (before & sign & body & after & ds & Hs & Hb1 & Hb2 & Hsign & Hg & Hlen & Hv).
    destruct (digits_with_underscores_head _ _ Hg) as (c & r & Hbody & Hc).
    assert (Hstrip : strip s = (sign ++ body)%string).
    { unfold strip. rewrite Hs, (lstrip_blank_app _ _ Hb1).
      assert (Hl : lstrip (sign ++ body ++ after) = (sign ++ body ++ after)%string).
      { destruct Hsign as [-> | [-> | ->]]; [|reflexivity|reflexivity].
        rewrite Hbody. simpl. now rewrite (digit_not_space c Hc). }
      rewrite Hl.
      replace (sign ++ body ++ after)%string with ((sign ++ body) ++ after)%string
        by (destruct Hsign as [-> | [-> | ->]]; reflexivity).
      rewrite (rstrip_app_blank _ _ Hb2).
      pose proof (rstrip_digits_with_underscores _ _ _ Hg) as Hr.
      destruct Hsign as [-> | [-> | ->]]; [exact Hr| |];
        simpl; rewrite Hr, Hbody; reflexivity. }
    assert (Hparts : int_sign (sign ++ body)
                     = (String.eqb sign "-", body)).
    { destruct Hsign as [-> | [-> | ->]]; [|reflexivity|reflexivity].
      rewrite Hbody. simpl. destruct (digit_not_mark c Hc) as (Hp & Hm & _).
      now rewrite Hp, Hm. }
    unfold int_of_str. rewrite Hstrip, Hparts.
    assert (Hz : int_digits 0 false body = Some (decimal_value 0 ds))
      by (apply int_digits_grammar; now exists ds).
    rewrite Hz, (digits_with_underscores_count _ _ _ Hg).
    apply Nat.leb_le in Hlen. rewrite Hlen, Hv. reflexivity.
Qed.

Lemma int_of_str_not_literal (s : string) :
  (forall v, ~ is_int_literal s v) -> int_of_str s = Raise ValueError.
Proof.
  intros H. destruct (int_of_str s) as [v|e] eqn:Hi.
  - exfalso. apply (H v). now apply int_of_str_literal.
  - apply int_of_str_raise in Hi. now subst e.
Qed.

(** C5, as amended.  The quantity block of [create_stocks] maps ">10" to
    100 and "1" to 0.  Any other text that is a base-10 integer literal
    for [int()] (white space around, an optional sign, digits with single
    underscores between them, at most 4300 digits) gives the value of
    the literal ("7" gives 7).  An ASCII text other than ">10" that is no
    such literal raises [ValueError] ("abc" does), as does any text with
    an ASCII character foreign to literals and any string of more than
    4300 digits. *)
Theorem quantity_normalization :
  stock_of_count (PyStr ">10") = Ok 100
  /\ stock_of_count (PyStr "1") = Ok 0
  /\ stock_of_count (PyStr "7") = Ok 7
  /\ stock_of_count (PyStr "abc") = Raise ValueError
  /\ (forall s v, s <> ">10" -> s <> "1" -> is_int_literal s v ->
                  stock_of_count (PyStr s) = Ok v)
  /\ (forall s, s <> ">10" -> ascii_text s = true ->
                (forall v, ~ is_int_literal s v) ->
                stock_of_count (PyStr s) = Raise ValueError)
  /\ (forall s c, s <> ">10" ->
                  In c (list_ascii_of_string s) ->
                  (nat_of_ascii c < 128)%nat -> is_literal_char c = false ->
                  stock_of_count (PyStr s) = Raise ValueError)
  /\ (forall s, all_digits s = true ->
                (int_max_str_digits < String.length s)%nat ->
                stock_of_count (PyStr s) = Raise ValueError).
Proof.
  repeat (split; [reflexivity|]).
  split; [|split; [|split]].
  - intros s v H1 H2 Hl. rewrite stock_of_count_other by assumption.
    now apply int_of_str_literal.
  - intros s H1 _ Hn. rewrite stock_of_count_other; [| assumption |].
    + now apply int_of_str_not_literal.
    + intros ->. apply (Hn 1). apply (proj1 (int_of_str_literal "1" 1)).
      reflexivity.
  - intros s c Hs Hin _ Hl.
    rewrite stock_of_count_other; [now apply (int_of_str_bad s c) | assumption |].
    intros Heq. subst s. simpl in Hin. destruct Hin as [Heq|[]].
    subst c. discriminate Hl.
  - intros s Hd Hlen. rewrite stock_of_count_other.
    + now apply int_of_str_long.
    + now apply digits_not_sentinel.
    + intros ->. unfold int_max_str_digits in Hlen. simpl in Hlen. lia.
Qed.

Lemma quantity_normalization_witness :
  stock_of_count (PyStr " -1_000 ") = Ok (-1000)
  /\ stock_of_count (PyStr "1 2") = Raise ValueError
  /\ stock_of_count (PyStr "") = Raise ValueError
  /\ stock_of_count (PyStr "1 pc") = Raise ValueError
  /\ stock_of_count (PyStr (replicate 4301 "0")) = Raise ValueError.
Proof.
  destruct quantity_normalization as (_ & _ & _ & _ & Hlit & Hnot & Hbad & Hlong).
  split; [|split; [|split; [|split]]].
  - apply (Hlit " -1_000 " (-1000)); [discriminate | discriminate |].
    exists " ", "-", "1_000", " ", "1000".
    split; [reflexivity|]. split; [reflexivity|]. split; [reflexivity|].
    split; [tauto|]. split; [repeat constructor|].
    split; [apply Nat.leb_le; vm_compute; reflexivity | reflexivity].
  - apply (Hnot "1 2"); [discriminate | reflexivity |].
    intros v Hv. apply int_of_str_literal in Hv. discriminate Hv.
  - apply (Hnot ""); [discriminate | reflexivity |].
    intros v Hv. apply int_of_str_literal in Hv. discriminate Hv.
  - apply (Hbad "1 pc" "p"%char);
      [discriminate | simpl; tauto | vm_compute; lia | reflexivity].
  - apply (Hlong (replicate 4301 "0")); [vm_compute; reflexivity|].
    vm_compute. lia.
Defined.

(** C5 as stated fails on a literal of more than 4300 digits: the text of
    4301 nines is made of digits only, and the quantity block raises
    [ValueError] instead of giving its value. *)
Lemma quantity_literal_over_limit :
  all_digits (replicate 4301 "9") = true
  /\ replicate 4301 "9" <> ">10" /\ replicate 4301 "9" <> "1"
  /\ stock_of_count (PyStr (replicate 4301 "9")) = Raise ValueError
  /\ ~ exists v, stock_of_count (PyStr (replicate 4301 "9")) = Ok v.
Proof.
  assert (H : stock_of_count (PyStr (replicate 4301 "9")) = Raise ValueError)
    by (vm_compute; reflexivity).
  split; [vm_compute; reflexivity|].
  split; [discriminate|]. split; [discriminate|]. split; [exact H|].
  intros [v Hv]. rewrite H in Hv. discriminate Hv.
Qed.

(** * Further properties of the code *)

(** ** Listing the offers of the seller channel *)

Section SellerListing.
Variable get_product_list : list string -> string -> result Seller.product_list_result.

(** More requests allowed do not change an outcome already reached. *)
Lemma seller_loop_fuel (fuel : nat) :
  forall extra last_id product_list asked r,
    Seller.get_offer_ids_loop get_product_list fuel last_id product_list asked
    = Some r ->
    Seller.get_offer_ids_loop get_product_list (fuel + extra) last_id
      product_list asked
    = Some r.
Proof.
  induction fuel as [|fuel IH]; intros extra last_id pl asked r H; [discriminate|].
  simpl in *. destruct (get_product_list asked last_id) as [p|e]; [|exact H].
  destruct (Seller.total p =? Z.of_nat (List.length (pl ++ Seller.items p)));
    [exact H | now apply IH].
Qed.

Lemma seller_loop_stops (fuel : nat) :
  forall last_id product_list asked products asked',
    Seller.get_offer_ids_loop get_product_list fuel last_id product_list asked
    = Some (Ok products, asked') ->
    exists earlier last p,
      asked' = earlier ++ [last]
      /\ get_product_list earlier last = Ok p
      /\ Seller.total p = Z.of_nat (List.length products)
      /\ exists more, asked' = asked ++ last_id :: more.
Proof.
  induction fuel as [|fuel IH]; intros last_id pl asked products asked' H;
    [discriminate|].
  simpl in H. destruct (get_product_list asked last_id) as [p|e] eqn:Hp;
    [|discriminate].
  destruct (Z.eqb_spec (Seller.total p)
              (Z.of_nat (List.length (pl ++ Seller.items p)))) as [Ht|Ht].
  - inversion H; subst. exists asked, last_id, p.
    repeat split; try assumption. now exists [].
  - apply IH in H. destruct H as (earlier & last & p' & H1 & H2 & H3 & more & H4).
    exists earlier, last, p'. repeat split; try assumption.
    exists (Seller.last_id p :: more). rewrite H4, <- app_assoc. reflexivity.
Qed.

(** X1.  When [get_offer_ids] of seller.py returns, the number of offer
    ids it returns is the total reported by the last answer of the
    server, and the first request carried the empty [last_id]. *)
Theorem seller_get_offer_ids_count (fuel : nat) (offer_ids asked : list string) :
  Seller.get_offer_ids get_product_list fuel = Some (Ok offer_ids, asked) ->
  exists earlier last p,
    asked = earlier ++ [last]
    /\ get_product_list earlier last = Ok p
    /\ Seller.total p = Z.of_nat (List.length offer_ids)
    /\ hd_error asked = Some "".
Proof.
  unfold Seller.get_offer_ids. intros H.
  destruct (Seller.get_offer_ids_loop get_product_list fuel "" [] [])
    as [[[products|e] asked0]|] eqn:Hl; try discriminate.
  inversion H; subst. apply seller_loop_stops in Hl.
  destruct Hl as (earlier & last & p & H1 & H2 & H3 & more & H4).
  exists earlier, last, p. rewrite length_map. repeat split; try assumption.
  now rewrite H4.
Qed.

(** X2.  If the server answers every request with an empty page and a
    total other than 0, [get_offer_ids] of seller.py never returns. *)
Theorem seller_get_offer_ids_spins :
  (forall asked last_id, exists p,
      get_product_list asked last_id = Ok p
      /\ Seller.items p = [] /\ Seller.total p <> 0) ->
  forall fuel, Seller.get_offer_ids get_product_list fuel = None.
Proof.
  intros Hs fuel. unfold Seller.get_offer_ids.
  assert (Hl : forall last_id asked,
             Seller.get_offer_ids_loop get_product_list fuel last_id [] asked
             = None).
  { induction fuel as [|fuel IH]; intros last_id asked; [reflexivity|].
    simpl. destruct (Hs asked last_id) as (p & Hp & Hi & Ht).
    rewrite Hp, Hi. simpl.
    destruct (Z.eqb_spec (Seller.total p) 0) as [?|_]; [contradiction|].
    apply IH. }
  now rewrite Hl.
Qed.
End SellerListing.

Lemma seller_loop_paged
    (get_product_list : list string -> string -> result Seller.product_list_result)
    (catalog : list Seller.product) (size : nat) :
  (0 < size)%nat ->
  seller_serves_in_pages get_product_list catalog size ->
  forall fuel last_id asked,
    (List.length asked <= (List.length catalog - 1) / size)%nat ->
    ((List.length catalog - 1) / size - List.length asked < fuel)%nat ->
    exists asked',
      Seller.get_offer_ids_loop get_product_list fuel last_id
        (firstn (List.length asked * size) catalog) asked
      = Some (Ok catalog, asked')
      /\ List.length asked' = S ((List.length catalog - 1) / size).
Proof.
  intros Hsize Hserve.
  pose proof (Nat.Div0.mul_div_le (List.length catalog - 1) size) as Hlo.
  pose proof (Nat.mul_succ_div_gt (List.length catalog - 1) size ltac:(lia)) as Hhi.
  set (q := ((List.length catalog - 1) / size)%nat) in *.
  induction fuel as [|fuel IH]; intros last_id asked Hk Hfuel; [lia|].
  simpl. destruct (Hserve asked last_id) as [next Hp]. rewrite Hp. simpl.
  rewrite <- firstn_plus.
  replace (List.length asked * size + size)%nat
    with (S (List.length asked) * size)%nat by lia.
  rewrite length_firstn.
  destruct (Z.eqb_spec (Z.of_nat (List.length catalog))
              (Z.of_nat (Nat.min (S (List.length asked) * size)
                                 (List.length catalog)))) as [Heq|Hne].
  - apply Nat2Z.inj in Heq.
    assert (Hq : List.length asked = q) by nia.
    exists (asked ++ [last_id]). split.
    + rewrite firstn_all2 by lia. reflexivity.
    + rewrite length_app. simpl. lia.
  - assert (Hlt : (S (List.length asked) * size < List.length catalog)%nat).
    { destruct (Nat.le_gt_cases (List.length catalog)
                  (S (List.length asked) * size)) as [Hle|Hgt]; [|exact Hgt].
      exfalso. apply Hne. now rewrite Nat.min_r. }
    assert (Hk' : (S (List.length asked) <= q)%nat) by nia.
    destruct (IH next (asked ++ [last_id])) as [asked' [H1 H2]].
    + rewrite length_app. simpl. lia.
    + rewrite length_app. simpl. lia.
    + exists asked'. rewrite length_app in H1. simpl in H1.
      replace (List.length asked + 1)%nat with (S (List.length asked)) in H1 by lia.
      split; assumption.
Qed.

(** X3.  Against a server that lists the catalogue in consecutive pages
    of [size] products and reports the size of the catalogue as total,
    [get_offer_ids] of seller.py returns the offer ids of the whole
    catalogue, in order, after one request per page (one request for an
    empty catalogue). *)
Theorem seller_get_offer_ids_paged
    (get_product_list : list string -> string -> result Seller.product_list_result)
    (catalog : list Seller.product) (size fuel : nat) :
  (0 < size)%nat ->
  seller_serves_in_pages get_product_list catalog size ->
  ((List.length catalog - 1) / size < fuel)%nat ->
  exists asked,
    Seller.get_offer_ids get_product_list fuel
    = Some (Ok (map Seller.product_offer_id catalog), asked)
    /\ List.length asked = S ((List.length catalog - 1) / size).
Proof.
  intros Hsize Hserve Hfuel.
  destruct (seller_loop_paged get_product_list catalog size Hsize Hserve
              fuel "" []) as [asked [H1 H2]]; simpl; try lia.
  exists asked. unfold Seller.get_offer_ids. simpl in H1. rewrite H1.
  split; [reflexivity | assumption].
Qed.

Lemma seller_paged_server_serves (catalog : list Seller.product) (size : nat) :
  seller_serves_in_pages (seller_paged_server catalog size) catalog size.
Proof. intros asked last_id. now exists "next". Qed.

Lemma seller_get_offer_ids_paged_witness :
  exists asked,
    Seller.get_offer_ids
      (seller_paged_server
         [Seller.Product 1 "a"; Seller.Product 2 "b"; Seller.Product 3 "c";
          Seller.Product 4 "d"; Seller.Product 5 "e"] 2) 10
    = Some (Ok ["a"; "b"; "c"; "d"; "e"], asked)
    /\ List.length asked = 3%nat.
Proof.
  apply (seller_get_offer_ids_paged
           (seller_paged_server
              [Seller.Product 1 "a"; Seller.Product 2 "b"; Seller.Product 3 "c";
               Seller.Product 4 "d"; Seller.Product 5 "e"] 2)
           [Seller.Product 1 "a"; Seller.Product 2 "b"; Seller.Product 3 "c";
            Seller.Product 4 "d"; Seller.Product 5 "e"] 2 10).
  - lia.
  - apply seller_paged_server_serves.
  - vm_compute. lia.
Defined.

Lemma seller_get_offer_ids_count_witness :
  exists earlier last p,
    [""; "next"; "next"] = earlier ++ [last]
    /\ seller_paged_server
         [Seller.Product 1 "a"; Seller.Product 2 "b"; Seller.Product 3 "c";
          Seller.Product 4 "d"; Seller.Product 5 "e"] 2 earlier last = Ok p
    /\ Seller.total p = 5
    /\ hd_error [""; "next"; "next"] = Some "".
Proof.
  apply (seller_get_offer_ids_count
           (seller_paged_server
              [Seller.Product 1 "a"; Seller.Product 2 "b"; Seller.Product 3 "c";
               Seller.Product 4 "d"; Seller.Product 5 "e"] 2)
           10 ["a"; "b"; "c"; "d"; "e"] [""; "next"; "next"]).
  reflexivity.
Defined.

Lemma seller_get_offer_ids_spins_witness :
  Seller.get_offer_ids
    (fun _ _ => Ok (Seller.ProductListResult [] 3 "")) 1000 = None.
Proof.
  apply (seller_get_offer_ids_spins
           (fun _ _ => Ok (Seller.ProductListResult [] 3 ""))).
  intros asked last_id. eexists. repeat split. discriminate.
Defined.

(** ** Listing the offers of the market channel *)

Section MarketListing.
Variable get_product_list : list string -> string -> result Market.offer_mapping_result.

Lemma market_loop_stops (fuel : nat) :
  forall page product_list asked entries asked',
    Market.get_offer_ids_loop get_product_list fuel page product_list asked
    = Some (Ok entries, asked') ->
    exists earlier last p,
      asked' = earlier ++ [last]
      /\ get_product_list earlier last = Ok p
      /\ Market.no_page (Market.nextPageToken p) = true
      /\ exists more, asked' = asked ++ page :: more
                      /\ Forall (fun token => token <> "") more.
Proof.
  induction fuel as [|fuel IH]; intros page pl asked entries asked' H;
    [discriminate|].
  simpl in H. destruct (get_product_list asked page) as [p|e] eqn:Hp;
    [|discriminate].
  destruct (Market.nextPageToken p) as [token|] eqn:Ht.
  - destruct (String.eqb_spec token "") as [He|Hne].
    + inversion H; subst. exists asked, page, p. rewrite Ht.
      repeat split; try assumption. exists []. now split.
    + apply IH in H.
      destruct H as (earlier & last & p' & H1 & H2 & H3 & more & H4 & H5).
      exists earlier, last, p'. repeat split; try assumption.
      exists (token :: more). rewrite H4, <- app_assoc. split; [reflexivity|].
      now constructor.
  - inversion H; subst. exists asked, page, p. rewrite Ht.
    repeat split; try assumption. exists []. now split.
Qed.

(** X4.  When [get_offer_ids] of market.py returns, the last answer of
    the server had no page token or an empty one, the first request
    carried the empty token and every later request a non-empty one. *)
Theorem market_get_offer_ids_stops (fuel : nat) (offer_ids asked : list string) :
  Market.get_offer_ids get_product_list fuel = Some (Ok offer_ids, asked) ->
  exists earlier last p,
    asked = earlier ++ [last]
    /\ get_product_list earlier last = Ok p
    /\ Market.no_page (Market.nextPageToken p) = true
    /\ exists later, asked = "" :: later
                     /\ Forall (fun token => token <> "") later.
Proof.
  unfold Market.get_offer_ids. intros H.
  destruct (Market.get_offer_ids_loop get_product_list fuel "" [] [])
    as [[[entries|e] asked0]|] eqn:Hl; try discriminate.
  inversion H; subst. apply market_loop_stops in Hl.
  destruct Hl as (earlier & last & p & H1 & H2 & H3 & more & H4 & H5).
  exists earlier, last, p. repeat split; try assumption.
  exists more. now split.
Qed.

(** X5.  If the server puts a non-empty page token in every answer,
    [get_offer_ids] of market.py never returns. *)
Theorem market_get_offer_ids_spins :
  (forall asked page, exists p,
      get_product_list asked page = Ok p
      /\ Market.no_page (Market.nextPageToken p) = false) ->
  forall fuel, Market.get_offer_ids get_product_list fuel = None.
Proof.
  intros Hs fuel. unfold Market.get_offer_ids.
  assert (Hl : forall page pl asked,
             Market.get_offer_ids_loop get_product_list fuel page pl asked
             = None).
  { induction fuel as [|fuel IH]; intros page pl asked; [reflexivity|].
    simpl. destruct (Hs asked page) as (p & Hp & Ht). rewrite Hp.
    destruct (Market.nextPageToken p) as [token|]; simpl in Ht;
      [|discriminate].
    rewrite Ht. apply IH. }
  now rewrite Hl.
Qed.
End MarketListing.

Lemma market_loop_paged
    (get_product_list : list string -> string -> result Market.offer_mapping_result)
    (catalog : list Market.offer_mapping_entry) (size : nat) :
  (0 < size)%nat ->
  market_serves_in_pages get_product_list catalog size ->
  forall fuel page asked,
    (List.length asked <= (List.length catalog - 1) / size)%nat ->
    ((List.length catalog - 1) / size - List.length asked < fuel)%nat ->
    exists asked',
      Market.get_offer_ids_loop get_product_list fuel page
        (firstn (List.length asked * size) catalog) asked
      = Some (Ok catalog, asked')
      /\ List.length asked' = S ((List.length catalog - 1) / size).
Proof.
  intros Hsize Hserve.
  pose proof (Nat.Div0.mul_div_le (List.length catalog - 1) size) as Hlo.
  pose proof (Nat.mul_succ_div_gt (List.length catalog - 1) size ltac:(lia)) as Hhi.
  set (q := ((List.length catalog - 1) / size)%nat) in *.
  assert (Hstop : forall (asked : list string) (page : string),
             (List.length asked <= q)%nat ->
             (List.length catalog <= S (List.length asked) * size)%nat ->
             exists asked',
               Some (Ok (firstn (List.length asked * size) catalog
                         ++ firstn size (skipn (List.length asked * size) catalog)),
                     asked ++ [page])
               = Some (Ok catalog, asked')
               /\ List.length asked' = S q).
  { intros asked page Hk Hle. exists (asked ++ [page]). split.
    - rewrite <- firstn_plus, firstn_all2 by lia. reflexivity.
    - rewrite length_app. simpl. nia. }
  induction fuel as [|fuel IH]; intros page asked Hk Hfuel; [lia|].
  simpl. destruct (Hserve asked page) as (next & Hp & Hnext). rewrite Hp. simpl.
  destruct (Nat.leb_spec (List.length catalog) (S (List.length asked) * size))
    as [Hle|Hgt].
  - destruct next as [token|]; simpl in Hnext.
    + rewrite Hnext. now apply Hstop.
    + now apply Hstop.
  - destruct next as [token|]; simpl in Hnext; [|discriminate].
    rewrite Hnext. rewrite <- firstn_plus.
    replace (List.length asked * size + size)%nat
      with (List.length (asked ++ [page]) * size)%nat
      by (rewrite length_app; simpl; lia).
    apply IH; rewrite length_app; simpl; nia.
Qed.

(** X6.  Against a server that lists the catalogue in consecutive pages
    of [size] entries and gives a page token exactly while entries
    remain, [get_offer_ids] of market.py returns the [shopSku] of the
    whole catalogue, in order, after one request per page. *)
Theorem market_get_offer_ids_paged
    (get_product_list : list string -> string -> result Market.offer_mapping_result)
    (catalog : list Market.offer_mapping_entry) (size fuel : nat) :
  (0 < size)%nat ->
  market_serves_in_pages get_product_list catalog size ->
  ((List.length catalog - 1) / size < fuel)%nat ->
  exists asked,
    Market.get_offer_ids get_product_list fuel
    = Some (Ok (map Market.shopSku catalog), asked)
    /\ List.length asked = S ((List.length catalog - 1) / size).
Proof.
  intros Hsize Hserve Hfuel.
  destruct (market_loop_paged get_product_list catalog size Hsize Hserve
              fuel "" []) as [asked [H1 H2]]; simpl; try lia.
  exists asked. unfold Market.get_offer_ids. simpl in H1. rewrite H1.
  split; [reflexivity | assumption].
Qed.

Lemma market_paged_server_serves (catalog : list Market.offer_mapping_entry)
    (size : nat) :
  market_serves_in_pages (market_paged_server catalog size) catalog size.
Proof.
  intros asked page. eexists. split; [reflexivity|].
  destruct (List.length catalog <=? S (List.length asked) * size)%nat; reflexivity.
Qed.

Lemma market_get_offer_ids_paged_witness :
  exists asked,
    Market.get_offer_ids
      (market_paged_server
         [Market.OfferMappingEntry "a"; Market.OfferMappingEntry "b";
          Market.OfferMappingEntry "c"] 2) 5
    = Some (Ok ["a"; "b"; "c"], asked)
    /\ List.length asked = 2%nat.
Proof.
  apply (market_get_offer_ids_paged
           (market_paged_server
              [Market.OfferMappingEntry "a"; Market.OfferMappingEntry "b";
               Market.OfferMappingEntry "c"] 2)
           [Market.OfferMappingEntry "a"; Market.OfferMappingEntry "b";
            Market.OfferMappingEntry "c"] 2 5).
  - lia.
  - apply market_paged_server_serves.
  - vm_compute. lia.
Defined.

Lemma market_get_offer_ids_stops_witness :
  exists earlier last p,
    [""; "next"] = earlier ++ [last]
    /\ market_paged_server
         [Market.OfferMappingEntry "a"; Market.OfferMappingEntry "b";
          Market.OfferMappingEntry "c"] 2 earlier last = Ok p
    /\ Market.no_page (Market.nextPageToken p) = true
    /\ exists later, [""; "next"] = "" :: later
                     /\ Forall (fun token => token <> "") later.
Proof.
  apply (market_get_offer_ids_stops
           (market_paged_server
              [Market.OfferMappingEntry "a"; Market.OfferMappingEntry "b";
               Market.OfferMappingEntry "c"] 2)
           5 ["a"; "b"; "c"] [""; "next"]).
  reflexivity.
Defined.

Lemma market_get_offer_ids_spins_witness :
  Market.get_offer_ids
    (fun _ _ => Ok (Market.OfferMappingResult [] (Some "again"))) 1000 = None.
Proof.
  apply (market_get_offer_ids_spins
           (fun _ _ => Ok (Market.OfferMappingResult [] (Some "again")))).
  intros asked page. eexists. split; reflexivity.
Defined.

(** ** [create_stocks] on any list of offer ids *)

Lemma list_remove_Permutation (x : string) (l l' : list string) :
  list_remove x l = Ok l' -> Permutation (x :: l') l.
Proof.
  revert l'. induction l as [|y l IH]; simpl; intros l' H; [discriminate|].
  destruct (String.eqb_spec y x) as [->|Hne].
  - inversion H; subst. reflexivity.
  - destruct (list_remove x l) as [r|e]; simpl in H; [|discriminate].
    inversion H; subst. rewrite perm_swap. constructor. now apply IH.
Qed.

Lemma list_remove_contains (x : string) (l : list string) :
  contains x l = true -> exists l', list_remove x l = Ok l'.
Proof.
  induction l as [|y l IH]; simpl; intros H; [discriminate|].
  rewrite (String.eqb_sym x y) in H.
  destruct (String.eqb y x); [now eexists|].
  destruct (IH H) as [l' Hl']. rewrite Hl'. simpl. now eexists.
Qed.

Section StockLoopAnyList.
Context {E : Type} (entry : string -> Z -> E) (code_of : E -> string).
Hypothesis code_of_entry : forall c z, code_of (entry c z) = c.

Lemma stocks_loop_Permutation (feed : list watch) :
  forall acc ids stocks left,
    stocks_loop entry feed acc ids = (Ok stocks, left) ->
    Permutation (map code_of stocks ++ left) (map code_of acc ++ ids).
Proof.
  induction feed as [|w rest IH]; intros acc ids stocks left H; simpl in H.
  - inversion H; subst. reflexivity.
  - destruct (contains (code w) ids); [|now apply IH].
    destruct (stock_of_count (Kolichestvo w)) as [z|e]; [|discriminate].
    destruct (list_remove (code w) ids) as [ids'|e] eqn:Hr; [|discriminate].
    apply IH in H. rewrite H, map_app. simpl. rewrite code_of_entry.
    rewrite <- app_assoc. apply Permutation_app_head. simpl.
    now apply list_remove_Permutation.
Qed.

Lemma stocks_loop_raise_cause (feed : list watch) :
  forall acc ids e left,
    stocks_loop entry feed acc ids = (Raise e, left) ->
    e = ValueError
    /\ exists w, In w feed /\ In (code w) ids
                 /\ stock_of_count (Kolichestvo w) = Raise ValueError.
Proof.
  induction feed as [|w rest IH]; intros acc ids e left H; simpl in H;
    [discriminate|].
  destruct (contains (code w) ids) eqn:Hc.
  - destruct (stock_of_count (Kolichestvo w)) as [z|e'] eqn:Hs.
    + destruct (list_remove_contains _ _ Hc) as [ids' Hr]. rewrite Hr in H.
      apply IH in H. destruct H as [He (w' & Hw' & Hin & Hbad)].
      split; [assumption|]. exists w'. repeat split; try assumption.
      * now right.
      * apply list_remove_Permutation in Hr.
        apply (Permutation_in _ Hr). now right.
    + inversion H; subst. pose proof (stock_of_count_raise _ _ Hs). subst e.
      split; [reflexivity|]. exists w. repeat split; try assumption.
      * now left.
      * now apply contains_In.
  - apply IH in H. destruct H as [He (w' & Hw' & Hin & Hbad)].
    split; [assumption|]. exists w'. repeat split; try assumption. now right.
Qed.

Lemma stocks_loop_app (feed more : list watch) :
  forall acc ids,
    stocks_loop entry (feed ++ more) acc ids
    = match stocks_loop entry feed acc ids with
      | (Ok acc', ids') => stocks_loop entry more acc' ids'
      | (Raise e, ids') => (Raise e, ids')
      end.
Proof.
  induction feed as [|w rest IH]; intros acc ids; simpl; [reflexivity|].
  destruct (contains (code w) ids); [|apply IH].
  destruct (stock_of_count (Kolichestvo w)); [|reflexivity].
  destruct (list_remove (code w) ids); [apply IH | reflexivity].
Qed.

Lemma stocks_loop_unlisted (feed : list watch) :
  forall acc ids,
    (forall w, In w feed -> contains (code w) ids = false) ->
    stocks_loop entry feed acc ids = (Ok acc, ids).
Proof.
  induction feed as [|w rest IH]; intros acc ids H; simpl; [reflexivity|].
  rewrite (H w) by now left. apply IH. intros w' Hw'. apply H. now right.
Qed.
End StockLoopAnyList.

Lemma create_stocks_rearranged (feed : list watch) (offer_ids : list string) :
  (forall stocks left,
      Seller.create_stocks feed offer_ids = (Ok stocks, left) ->
      Permutation (map Seller.offer_id stocks) offer_ids
      /\ List.length stocks = List.length offer_ids)
  /\ (forall date warehouse_id stocks left,
        Market.create_stocks date feed offer_ids warehouse_id = (Ok stocks, left) ->
        Permutation (map Market.sku stocks) offer_ids
        /\ List.length stocks = List.length offer_ids).
Proof.
  split.
  - intros stocks left H. unfold Seller.create_stocks in H.
    rewrite seller_loop_eq in H.
    destruct (stocks_loop seller_entry feed [] offer_ids) as [[s|e] l] eqn:Hl;
      [|discriminate].
    inversion H; subst; clear H.
    apply (stocks_loop_Permutation seller_entry Seller.offer_id) in Hl;
      [|reflexivity].
    simpl in Hl.
    assert (Hp : Permutation
                   (map Seller.offer_id
                      (s ++ map (fun c => Seller.StockEntry c 0) left))
                   offer_ids).
    { rewrite map_app, map_map. simpl. now rewrite map_id. }
    split; [exact Hp|].
    apply Permutation_length in Hp. now rewrite length_map in Hp.
  - intros date wh stocks left H. unfold Market.create_stocks in H.
    rewrite market_loop_eq in H.
    destruct (stocks_loop (market_entry wh date) feed [] offer_ids)
      as [[s|e] l] eqn:Hl; [|discriminate].
    inversion H; subst; clear H.
    apply (stocks_loop_Permutation (market_entry wh date) Market.sku) in Hl;
      [|reflexivity].
    simpl in Hl.
    assert (Hp : Permutation
                   (map Market.sku
                      (s ++ map (fun c => Market.StockEntry c wh
                                            [Market.Item 0 "FIT" date]) left))
                   offer_ids).
    { rewrite map_app, map_map. simpl. now rewrite map_id. }
    split; [exact Hp|].
    apply Permutation_length in Hp. now rewrite length_map in Hp.
Qed.

(** X7.  Whatever the feed and the list of offer ids, duplicates
    included, when [create_stocks] returns, the codes of its entries are
    a rearrangement of the offer ids it was given: as many entries as
    offer ids, each id as often as listed. *)
Theorem create_stocks_codes_rearranged (feed : list watch) (offer_ids : list string) :
  (forall stocks left,
      Seller.create_stocks feed offer_ids = (Ok stocks, left) ->
      Permutation (map Seller.offer_id stocks) offer_ids
      /\ List.length stocks = List.length offer_ids)
  /\ (forall date warehouse_id stocks left,
        Market.create_stocks date feed offer_ids warehouse_id = (Ok stocks, left) ->
        Permutation (map Market.sku stocks) offer_ids
        /\ List.length stocks = List.length offer_ids).
Proof. exact (create_stocks_rearranged feed offer_ids). Qed.

Lemma create_stocks_codes_rearranged_witness :
  Permutation ["b"; "a"; "a"; "c"] ["a"; "b"; "a"; "c"]
  /\ List.length [Seller.StockEntry "b" 5; Seller.StockEntry "a" 100;
                  Seller.StockEntry "a" 0; Seller.StockEntry "c" 0]
     = List.length ["a"; "b"; "a"; "c"].
Proof.
  apply (proj1 (create_stocks_codes_rearranged
                  [Watch (PyStr "b") (PyInt 5) "1.00";
                   Watch (PyStr "a") (PyStr ">10") "2.00"]
                  ["a"; "b"; "a"; "c"])
           [Seller.StockEntry "b" 5; Seller.StockEntry "a" 100;
            Seller.StockEntry "a" 0; Seller.StockEntry "c" 0]
           ["a"; "c"]).
  reflexivity.
Defined.

(** X8.  The only exception [create_stocks] raises is the [ValueError] of
    a quantity: when it raises, some feed record with a listed code
    carries a quantity that the normalisation rejects, so the call to
    [offer_ids.remove] never fails. *)
Theorem create_stocks_raise_cause (feed : list watch) (offer_ids : list string) :
  (forall e left,
      Seller.create_stocks feed offer_ids = (Raise e, left) ->
      e = ValueError
      /\ exists w, In w feed /\ In (code w) offer_ids
                   /\ stock_of_count (Kolichestvo w) = Raise ValueError)
  /\ (forall date warehouse_id e left,
        Market.create_stocks date feed offer_ids warehouse_id = (Raise e, left) ->
        e = ValueError
        /\ exists w, In w feed /\ In (code w) offer_ids
                     /\ stock_of_count (Kolichestvo w) = Raise ValueError).
Proof.
  split.
  - intros e left H. unfold Seller.create_stocks in H.
    rewrite seller_loop_eq in H.
    destruct (stocks_loop seller_entry feed [] offer_ids) as [[s|e'] l] eqn:Hl;
      [discriminate|].
    inversion H; subst. now apply stocks_loop_raise_cause in Hl.
  - intros date wh e left H. unfold Market.create_stocks in H.
    rewrite market_loop_eq in H.
    destruct (stocks_loop (market_entry wh date) feed [] offer_ids)
      as [[s|e'] l] eqn:Hl; [discriminate|].
    inversion H; subst. now apply stocks_loop_raise_cause in Hl.
Qed.

Lemma create_stocks_raise_cause_witness :
  ValueError = ValueError
  /\ exists w,
       In w [Watch (PyStr "a") (PyInt 3) "1.00"; Watch (PyStr "b") (PyStr "?") "2.00"]
       /\ In (code w) ["a"; "b"]
       /\ stock_of_count (Kolichestvo w) = Raise ValueError.
Proof.
  apply (proj1 (create_stocks_raise_cause
                  [Watch (PyStr "a") (PyInt 3) "1.00";
                   Watch (PyStr "b") (PyStr "?") "2.00"]
                  ["a"; "b"])
           ValueError ["b"]).
  reflexivity.
Defined.

(** ** Calling [create_stocks] again, and feeds that repeat a code *)

Lemma channel_only_unlisted (feed : list watch) (offer_ids : list string) (w : watch) :
  In w feed -> contains (code w) (channel_only feed offer_ids) = false.
Proof.
  intros Hw. unfold channel_only. rewrite contains_filter.
  assert (Hc : contains (code w) (codes feed) = true).
  { apply contains_In. unfold codes. now apply in_map. }
  rewrite Hc. apply andb_false_r.
Qed.

(** X9.  For a duplicate-free list, once [create_stocks] has returned, a
    second call with the same feed on the list it left reports every
    remaining offer id with stock 0 and leaves the list as it is: the
    stocks of the feed are lost for a caller that reuses the list. *)
Theorem create_stocks_second_call (feed : list watch) (offer_ids : list string)
    (stocks : list Seller.stock_entry) (left : list string) :
  NoDup offer_ids ->
  Seller.create_stocks feed offer_ids = (Ok stocks, left) ->
  Seller.create_stocks feed left
  = (Ok (map (fun c => Seller.StockEntry c 0) left), left)
  /\ forall date warehouse_id,
       Market.create_stocks date feed left warehouse_id
       = (Ok (map (fun c => Market.StockEntry c warehouse_id
                              [Market.Item 0 "FIT" date]) left), left).
Proof.
  intros Hnd H. rewrite (seller_create_stocks_left _ _ _ _ Hnd H).
  split.
  - unfold Seller.create_stocks. rewrite seller_loop_eq.
    rewrite stocks_loop_unlisted; [reflexivity|].
    intros w Hw. now apply channel_only_unlisted.
  - intros date wh. unfold Market.create_stocks. rewrite market_loop_eq.
    rewrite stocks_loop_unlisted; [reflexivity|].
    intros w Hw. now apply channel_only_unlisted.
Qed.

Lemma create_stocks_second_call_witness :
  Seller.create_stocks
    [Watch (PyStr "123") (PyStr ">10") "1000.00 p."] ["456"]
  = (Ok [Seller.StockEntry "456" 0], ["456"]).
Proof.
  apply (create_stocks_second_call
           [Watch (PyStr "123") (PyStr ">10") "1000.00 p."] ["123"; "456"]
           [Seller.StockEntry "123" 100; Seller.StockEntry "456" 0] ["456"]).
  - apply nodupb_NoDup. reflexivity.
  - reflexivity.
Defined.

(** X10.  For a duplicate-free list, records appended to the feed whose
    codes already occur in it change nothing: [create_stocks] reads the
    first record of a code only, also when a later one has another, or an
    unreadable, quantity. *)
Theorem create_stocks_first_record_wins (feed more : list watch)
    (offer_ids : list string) :
  NoDup offer_ids ->
  (forall w, In w more -> In (code w) (codes feed)) ->
  Seller.create_stocks (feed ++ more) offer_ids
  = Seller.create_stocks feed offer_ids
  /\ forall date warehouse_id,
       Market.create_stocks date (feed ++ more) offer_ids warehouse_id
       = Market.create_stocks date feed offer_ids warehouse_id.
Proof.
  intros Hnd Hmore.
  assert (Hloop : forall (E : Type) (entry : string -> Z -> E),
             stocks_loop entry (feed ++ more) [] offer_ids
             = stocks_loop entry feed [] offer_ids).
  { intros E entry. rewrite stocks_loop_app.
    destruct (stocks_loop entry feed [] offer_ids) as [[s|e] l] eqn:Hl;
      [|reflexivity].
    rewrite (stocks_loop_left entry feed [] offer_ids s l Hnd Hl).
    apply stocks_loop_unlisted. intros w Hw.
    unfold channel_only. rewrite contains_filter.
    assert (Hc : contains (code w) (codes feed) = true)
      by (apply contains_In; now apply Hmore).
    rewrite Hc. apply andb_false_r. }
  split.
  - unfold Seller.create_stocks. now rewrite !seller_loop_eq, Hloop.
  - intros date wh. unfold Market.create_stocks.
    now rewrite !market_loop_eq, Hloop.
Qed.

Lemma create_stocks_first_record_wins_witness :
  Seller.create_stocks
    ([Watch (PyStr "123") (PyStr "4") "1000.00 p."]
     ++ [Watch (PyInt 123) (PyStr "n/a") "1.00 p."])
    ["123"; "456"]
  = Seller.create_stocks
      [Watch (PyStr "123") (PyStr "4") "1000.00 p."] ["123"; "456"].
Proof.
  apply (create_stocks_first_record_wins
           [Watch (PyStr "123") (PyStr "4") "1000.00 p."]
           [Watch (PyInt 123) (PyStr "n/a") "1.00 p."]
           ["123"; "456"]).
  - apply nodupb_NoDup. reflexivity.
  - intros w [Hw|[]]. subst w. simpl. now left.
Defined.

(** ** What the upload drivers return and send *)

Lemma filter_map_swap {A B} (f : B -> bool) (g : A -> B) (l : list A) :
  filter f (map g l) = map g (filter (fun x => f (g x)) l).
Proof.
  induction l as [|a l IH]; simpl; [reflexivity|].
  destruct (f (g a)); simpl; now rewrite IH.
Qed.

(** X11.  With a duplicate-free list, readable quantities and a server
    that answers, [upload_stocks] of seller.py returns as [not_empty] the
    entries of the listed feed codes whose stock is not 0, in feed order:
    offers absent from the feed and offers whose quantity is "1" are left
    out of it. *)
Theorem seller_upload_stocks_not_empty
    (http : list Seller.call -> Seller.call -> option exn)
    (feed : list watch) (offer_ids : list string) :
  always_ok http -> NoDup offer_ids -> quantities_recognised feed offer_ids ->
  exists stocks,
    fst (Seller.upload_stocks http feed offer_ids [])
    = Ok (map (fun c => Seller.StockEntry c (matched_stock feed c))
              (filter (fun c => negb (matched_stock feed c =? 0))
                      (matched_codes feed offer_ids)),
          stocks)
    /\ fst (Seller.create_stocks feed offer_ids) = Ok stocks.
Proof.
  intros Hok Hnd Hq. eexists. unfold Seller.upload_stocks.
  rewrite (seller_create_stocks_ok feed offer_ids Hnd Hq). run_io.
  rewrite divide_pieces by lia. cbv beta iota.
  rewrite (for_each_request_ok http Seller.update_stocks _ Hok). simpl.
  split; [|reflexivity]. f_equal. f_equal.
  rewrite filter_app, !filter_map_swap. simpl.
  rewrite (filter_none (fun _ => false)) by reflexivity.
  simpl. now rewrite app_nil_r.
Qed.

Lemma seller_upload_stocks_not_empty_witness :
  exists stocks,
    fst (Seller.upload_stocks (fun _ _ => None)
           [Watch (PyStr "1") (PyStr ">10") "10.00";
            Watch (PyStr "2") (PyStr "1") "20.00";
            Watch (PyStr "3") (PyStr "0") "30.00";
            Watch (PyStr "4") (PyInt 6) "40.00"]
           ["1"; "2"; "3"; "4"; "5"] [])
    = Ok ([Seller.StockEntry "1" 100; Seller.StockEntry "4" 6], stocks)
    /\ fst (Seller.create_stocks
              [Watch (PyStr "1") (PyStr ">10") "10.00";
               Watch (PyStr "2") (PyStr "1") "20.00";
               Watch (PyStr "3") (PyStr "0") "30.00";
               Watch (PyStr "4") (PyInt 6) "40.00"]
              ["1"; "2"; "3"; "4"; "5"])
       = Ok stocks.
Proof.
  apply (seller_upload_stocks_not_empty (fun _ _ => None)
           [Watch (PyStr "1") (PyStr ">10") "10.00";
            Watch (PyStr "2") (PyStr "1") "20.00";
            Watch (PyStr "3") (PyStr "0") "30.00";
            Watch (PyStr "4") (PyInt 6) "40.00"]
           ["1"; "2"; "3"; "4"; "5"]).
  - intros sent r. reflexivity.
  - apply nodupb_NoDup. reflexivity.
  - apply quantities_recognisedb_ok. reflexivity.
Defined.

(** A loop over chunks stops at the first request that the server
    refuses. *)
Lemma for_each_request_refused {R A : Type} (http : list R -> R -> option exn)
    (mk : A -> R) (items : list A) :
  forall (k : nat) (x : A) (e : exn) (sent : list R),
    nth_error items k = Some x ->
    (forall j y, (j < k)%nat -> nth_error items j = Some y ->
                 http (sent ++ map mk (firstn j items)) (mk y) = None) ->
    http (sent ++ map mk (firstn k items)) (mk x) = Some e ->
    for_each items (fun y => request http (mk y)) sent
    = (Raise e, sent ++ map mk (firstn (S k) items)).
Proof.
  induction items as [|a rest IH]; intros k x e sent Hk Hbefore Hfail.
  - destruct k; discriminate Hk.
  - destruct k as [|k]; simpl in Hk.
    + inversion Hk; subst a. simpl in Hfail. rewrite app_nil_r in Hfail.
      simpl. unfold io_bind, request. rewrite Hfail. reflexivity.
    + simpl. unfold io_bind. unfold request at 1.
      pose proof (Hbefore 0%nat a ltac:(lia) eq_refl) as H0.
      simpl in H0. rewrite app_nil_r in H0. rewrite H0.
      rewrite (IH k x e (sent ++ [mk a]) Hk).
      * rewrite <- app_assoc. reflexivity.
      * intros j y Hj Hy. rewrite <- app_assoc.
        apply (Hbefore (S j) y); [lia | exact Hy].
      * rewrite <- app_assoc. exact Hfail.
Qed.

(** X12.  [upload_stocks] does not go on after a failed request: when
    the server answers the first [k] chunks and refuses the next one with
    [e], the call raises [e] having sent exactly these [k + 1] chunks, in
    seller.py and in market.py. *)
Theorem upload_stocks_stops_at_failure :
  (forall http feed offer_ids stocks left chunks k chunk e,
      Seller.create_stocks feed offer_ids = (Ok stocks, left) ->
      divide stocks 100 = Ok chunks ->
      nth_error chunks k = Some chunk ->
      (forall j c, (j < k)%nat -> nth_error chunks j = Some c ->
                   http (map Seller.update_stocks (firstn j chunks))
                        (Seller.update_stocks c) = None) ->
      http (map Seller.update_stocks (firstn k chunks))
           (Seller.update_stocks chunk) = Some e ->
      Seller.upload_stocks http feed offer_ids []
      = (Raise e, map Seller.update_stocks (firstn (S k) chunks)))
  /\ (forall http date feed offer_ids warehouse_id stocks left chunks k chunk e,
        Market.create_stocks date feed offer_ids warehouse_id = (Ok stocks, left) ->
        divide stocks 2000 = Ok chunks ->
        nth_error chunks k = Some chunk ->
        (forall j c, (j < k)%nat -> nth_error chunks j = Some c ->
                     http (map Market.update_stocks (firstn j chunks))
                          (Market.update_stocks c) = None) ->
        http (map Market.update_stocks (firstn k chunks))
             (Market.update_stocks chunk) = Some e ->
        Market.upload_stocks http date feed offer_ids warehouse_id []
        = (Raise e, map Market.update_stocks (firstn (S k) chunks))).
Proof.
  split.
  - intros http feed ids stocks left chunks k chunk e Hc Hd Hk Hbefore Hfail.
    unfold Seller.upload_stocks. rewrite Hc. run_io. rewrite Hd. cbv beta iota.
    rewrite (for_each_request_refused http Seller.update_stocks chunks
               k chunk e [] Hk Hbefore Hfail).
    reflexivity.
  - intros http date feed ids wh stocks left chunks k chunk e
           Hc Hd Hk Hbefore Hfail.
    unfold Market.upload_stocks. rewrite Hc. run_io. rewrite Hd. cbv beta iota.
    rewrite (for_each_request_refused http Market.update_stocks chunks
               k chunk e [] Hk Hbefore Hfail).
    reflexivity.
Qed.

Lemma upload_stocks_stops_at_failure_witness :
  Seller.upload_stocks
    (fun sent _ => if (List.length sent =? 1)%nat then Some HTTPError else None)
    [] sample_offer_ids []
  = (Raise HTTPError,
     map Seller.update_stocks
       (firstn 2 (pieces 100 (map (fun c => Seller.StockEntry c 0) sample_offer_ids)
                    25))).
Proof.
  apply (proj1 upload_stocks_stops_at_failure
           (fun sent _ => if (List.length sent =? 1)%nat then Some HTTPError else None)
           [] sample_offer_ids
           (map (fun c => Seller.StockEntry c 0) sample_offer_ids)
           sample_offer_ids
           (pieces 100 (map (fun c => Seller.StockEntry c 0) sample_offer_ids) 25)
           1%nat
           (firstn 100 (skipn 100 (map (fun c => Seller.StockEntry c 0)
                                      sample_offer_ids)))
           HTTPError).
  - vm_compute. reflexivity.
  - vm_compute. reflexivity.
  - vm_compute. reflexivity.
  - intros j c Hj _. destruct j as [|j]; [reflexivity | lia].
  - reflexivity.
Defined.

(** X13.  One unreadable quantity stops a synchronisation before
    anything is sent: for a duplicate-free list, when the first record of
    a listed code carries a quantity that the normalisation rejects,
    [main] and [upload_stocks] of seller.py and [upload_stocks] of
    market.py issue no request at all. *)
Theorem unreadable_quantity_sends_nothing (feed : list watch)
    (offer_ids : list string) :
  NoDup offer_ids ->
  (exists c w, In c offer_ids /\ first_record c feed = Some w /\
               forall z, stock_of_count (Kolichestvo w) <> Ok z) ->
  (forall http,
      Seller.main http feed offer_ids = []
      /\ Seller.upload_stocks http feed offer_ids [] = (Raise ValueError, []))
  /\ (forall http date warehouse_id,
        Market.upload_stocks http date feed offer_ids warehouse_id []
        = (Raise ValueError, [])).
Proof.
  intros Hnd Hbad.
  destruct (create_stocks_raises feed offer_ids Hnd Hbad) as [[left Hs] Hm].
  split.
  - intros http. unfold Seller.main, Seller.main_try, Seller.upload_stocks.
    rewrite Hs. split; reflexivity.
  - intros http date wh. destruct (Hm date wh) as [left' Hm'].
    unfold Market.upload_stocks. rewrite Hm'. reflexivity.
Qed.

Lemma unreadable_quantity_sends_nothing_witness :
  Seller.main (fun _ _ => None)
    [Watch (PyStr "123") (PyStr ">10") "1000.00 p.";
     Watch (PyStr "456") (PyStr "many") "2000.00 p."]
    ["123"; "456"; "789"]
  = [].
Proof.
  refine (proj1 (proj1 (unreadable_quantity_sends_nothing
            [Watch (PyStr "123") (PyStr ">10") "1000.00 p.";
             Watch (PyStr "456") (PyStr "many") "2000.00 p."]
            ["123"; "456"; "789"] _ _) (fun _ _ => None))).
  - apply nodupb_NoDup. reflexivity.
  - exists "456", (Watch (PyStr "456") (PyStr "many") "2000.00 p.").
    split; [simpl; tauto|]. split; [reflexivity|].
    intros z. discriminate.
Defined.

(** ** More on price normalisation *)

Lemma keep_digits_fixed (s : string) : all_digits s = true -> keep_digits s = s.
Proof.
  induction s as [|c r IH]; simpl; intros H; [reflexivity|].
  apply andb_true_iff in H. destruct H as [Hc Hr]. now rewrite Hc, IH.
Qed.

Lemma digit_not_dot (c : ascii) : is_digit c = true -> Ascii.eqb c "." = false.
Proof.
  destruct c as [[] [] [] [] [] [] [] []]; simpl; intros H;
    try reflexivity; discriminate H.
Qed.

Lemma before_first_dot_digits (s : string) :
  all_digits s = true -> before_first_dot s = s.
Proof.
  induction s as [|c r IH]; simpl; intros H; [reflexivity|].
  apply andb_true_iff in H. destruct H as [Hc Hr].
  now rewrite (digit_not_dot c Hc), IH.
Qed.

Lemma before_first_dot_append (a b : string) :
  before_first_dot (a ++ String "." b)%string = before_first_dot a.
Proof.
  induction a as [|c r IH]; simpl; [reflexivity|].
  destruct (Ascii.eqb c "."); [reflexivity | now rewrite IH].
Qed.

Lemma keep_digits_length (s : string) :
  (String.length (keep_digits s) <= String.length s)%nat.
Proof.
  induction s as [|c r IH]; simpl; [lia|]. destruct (is_digit c); simpl; lia.
Qed.

Lemma before_first_dot_length (s : string) :
  (String.length (before_first_dot s) <= String.length s)%nat.
Proof.
  induction s as [|c r IH]; simpl; [lia|].
  destruct (Ascii.eqb c "."); simpl; lia.
Qed.

(** X14.  [price_conversion] returns digits only and never more
    characters than it was given; it leaves a string of digits as it is
    (so applying it twice changes nothing), and whatever follows a ['.']
    has no influence on the result. *)
Theorem price_conversion_shape :
  (forall price, all_digits (price_conversion price) = true)
  /\ (forall price,
        (String.length (price_conversion price) <= String.length price)%nat)
  /\ (forall price, all_digits price = true -> price_conversion price = price)
  /\ (forall price, price_conversion (price_conversion price)
                    = price_conversion price)
  /\ (forall whole rest,
        price_conversion (whole ++ String "." rest)%string
        = price_conversion whole).
Proof.
  assert (Hfix : forall price, all_digits price = true ->
                               price_conversion price = price).
  { intros price H. rewrite price_conversion_spec. unfold spec_price_normalize.
    now rewrite (before_first_dot_digits price H), keep_digits_fixed. }
  split; [exact price_conversion_digits|]. split; [|split; [exact Hfix|split]].
  - intros price. rewrite price_conversion_spec. unfold spec_price_normalize.
    pose proof (keep_digits_length (before_first_dot price)).
    pose proof (before_first_dot_length price). lia.
  - intros price. apply Hfix, price_conversion_digits.
  - intros whole rest. rewrite !price_conversion_spec. unfold spec_price_normalize.
    now rewrite before_first_dot_append.
Qed.

Lemma price_conversion_shape_witness : price_conversion "5990" = "5990".
Proof.
  apply (proj1 (proj2 (proj2 price_conversion_shape)) "5990"). reflexivity.
Defined.

(** ** More on [create_prices] *)

Lemma decimal_value_nonneg (s : string) :
  forall acc, 0 <= acc -> all_digits s = true -> 0 <= decimal_value acc s.
Proof.
  induction s as [|c r IH]; cbn [all_digits decimal_value];
    intros acc Hacc H; [assumption|].
  apply andb_true_iff in H. destruct H as [Hc Hr]. apply IH; [|assumption].
  assert (0 <= digit_value c).
  { unfold is_digit in Hc. cbv zeta in Hc. apply andb_true_iff in Hc.
    destruct Hc as [Hlo _]. apply Nat.leb_le in Hlo. unfold digit_value.
    apply Nat2Z.inj_le in Hlo. change (Z.of_nat 48) with 48 in Hlo. lia. }
  lia.
Qed.

Lemma market_prices_loop_fails (feed : list watch) (offer_ids : list string) :
  forall acc,
    (exists w, In w feed /\ In (code w) offer_ids
               /\ int_of_str (price_conversion (Tsena w)) = Raise ValueError) ->
    Market.create_prices_loop feed acc offer_ids = Raise ValueError.
Proof.
  induction feed as [|w0 rest IH]; intros acc (w & Hw & Hc & Hp); [contradiction|].
  simpl. fold (code w0). destruct Hw as [Heq|Hw].
  - subst w0. apply contains_In in Hc. now rewrite Hc, Hp.
  - assert (Hex : exists w, In w rest /\ In (code w) offer_ids
                            /\ int_of_str (price_conversion (Tsena w))
                               = Raise ValueError) by eauto.
    destruct (contains (code w0) offer_ids); [|now apply IH].
    destruct (int_of_str (price_conversion (Tsena w0))) as [v|e] eqn:Hv; simpl.
    + now apply IH.
    + apply int_of_str_raise in Hv. now subst e.
Qed.

(** X15.  [create_prices] of market.py raises, and then [ValueError],
    when some feed record with a listed code has, before the first ['.']
    of its price, no digit or more than 4300 digits; when there is no
    such record it returns one entry per record with a listed code, in
    feed order, whose value is the number written by the digits kept,
    never negative. *)
Theorem market_create_prices_outcome (feed : list watch) (offer_ids : list string) :
  ((exists w, In w feed /\ In (code w) offer_ids
              /\ (price_conversion (Tsena w) = ""
                  \/ (int_max_str_digits
                      < String.length (price_conversion (Tsena w)))%nat))
   -> Market.create_prices feed offer_ids = Raise ValueError)
  /\ (~ (exists w, In w feed /\ In (code w) offer_ids
                   /\ (price_conversion (Tsena w) = ""
                       \/ (int_max_str_digits
                           < String.length (price_conversion (Tsena w)))%nat))
      -> Market.create_prices feed offer_ids
         = Ok (map market_price_of (listed feed offer_ids))
         /\ Forall (fun p => 0 <= Market.value (Market.price p))
                   (map market_price_of (listed feed offer_ids))).
Proof.
  split.
  - intros (w & Hw & Hc & Hbad). unfold Market.create_prices.
    apply market_prices_loop_fails. exists w. split; [assumption|].
    split; [assumption|]. destruct Hbad as [Hempty|Hlong].
    + now rewrite Hempty.
    + apply int_of_str_long; [apply price_conversion_digits | exact Hlong].
  - intros Hgood. split.
    + unfold Market.create_prices. rewrite market_prices_loop; [reflexivity|].
      intros w Hw Hc. split.
      * intros Hp. apply Hgood. exists w. tauto.
      * destruct (Nat.le_gt_cases
                    (String.length (price_conversion (Tsena w)))
                    int_max_str_digits) as [Hle|Hgt]; [exact Hle|].
        exfalso. apply Hgood. exists w. tauto.
    + apply Forall_forall. intros p Hp. apply in_map_iff in Hp.
      destruct Hp as (w & <- & _). simpl.
      apply decimal_value_nonneg; [lia | apply price_conversion_digits].
Qed.

Lemma market_create_prices_outcome_witness :
  Market.create_prices
    [Watch (PyStr "1") (PyStr "5") "1'250.90 p.";
     Watch (PyStr "2") (PyStr "5") "p. 10"]
    ["1"]
  = Ok [Market.PriceEntry "1" (Market.PriceValue 1250 "RUR")]
  /\ Market.create_prices
       [Watch (PyStr "1") (PyStr "5") "1'250.90 p.";
        Watch (PyStr "2") (PyStr "5") (replicate 4301 "7")]
       ["1"; "2"]
     = Raise ValueError.
Proof.
  split.
  - apply (proj2 (market_create_prices_outcome
                    [Watch (PyStr "1") (PyStr "5") "1'250.90 p.";
                     Watch (PyStr "2") (PyStr "5") "p. 10"]
                    ["1"])).
    intros (w & Hw & Hc & Hp). simpl in Hw, Hc.
    destruct Hw as [<-|[<-|[]]].
    + destruct Hp as [Hp|Hp]; [discriminate Hp|].
      vm_compute in Hp. lia.
    + destruct Hc as [Hc|[]]. discriminate Hc.
  - apply (proj1 (market_create_prices_outcome
                    [Watch (PyStr "1") (PyStr "5") "1'250.90 p.";
                     Watch (PyStr "2") (PyStr "5") (replicate 4301 "7")]
                    ["1"; "2"])).
    exists (Watch (PyStr "2") (PyStr "5") (replicate 4301 "7")).
    split; [simpl; tauto|]. split; [simpl; tauto|]. right.
    vm_compute. lia.
Defined.

Lemma listed_same_members (feed : list watch) (ids ids' : list string) :
  (forall c, In c ids <-> In c ids') -> listed feed ids = listed feed ids'.
Proof.
  intros H. unfold listed. apply filter_ext. intros w.
  destruct (contains (code w) ids) eqn:Hc; symmetry.
  - apply contains_In. apply H. now apply contains_In.
  - apply contains_false. intros Hin. apply H in Hin.
    apply contains_false in Hc. contradiction.
Qed.

Lemma market_prices_loop_members (feed : list watch) (ids ids' : list string) :
  (forall c, contains c ids = contains c ids') ->
  forall acc,
    Market.create_prices_loop feed acc ids
    = Market.create_prices_loop feed acc ids'.
Proof.
  intros H. induction feed as [|w rest IH]; intros acc; simpl; [reflexivity|].
  rewrite <- H. destruct (contains (str (Kod w)) ids); [|apply IH].
  destruct (int_of_str (price_conversion (Tsena w))); simpl;
    [apply IH | reflexivity].
Qed.

(** X16.  [create_prices] looks at [offer_ids] as a set: two lists with
    the same members, in any order and with any repetitions, give the
    same result, in seller.py and in market.py. *)
Theorem create_prices_members_only (feed : list watch) (ids ids' : list string) :
  (forall c, In c ids <-> In c ids') ->
  Seller.create_prices feed ids = Seller.create_prices feed ids'
  /\ Market.create_prices feed ids = Market.create_prices feed ids'.
Proof.
  intros H. split.
  - rewrite !seller_create_prices_eq. now rewrite (listed_same_members feed ids ids').
  - unfold Market.create_prices. apply market_prices_loop_members.
    intros c. destruct (contains c ids) eqn:Hc; symmetry.
    + apply contains_In, H. now apply contains_In.
    + apply contains_false. intros Hin. apply H in Hin.
      apply contains_false in Hc. contradiction.
Qed.

Lemma create_prices_members_only_witness :
  Seller.create_prices [Watch (PyStr "b") (PyStr "1") "7.00"] ["a"; "b"]
  = Seller.create_prices [Watch (PyStr "b") (PyStr "1") "7.00"] ["b"; "a"; "b"].
Proof.
  apply (create_prices_members_only
           [Watch (PyStr "b") (PyStr "1") "7.00"] ["a"; "b"] ["b"; "a"; "b"]).
  intros c. simpl. tauto.
Defined.

Lemma count_occ_filter_member (p : string -> bool) (l : list string) (c : string) :
  p c = true ->
  count_occ string_dec (filter p l) c = count_occ string_dec l c.
Proof.
  intros Hp. induction l as [|x l IH]; simpl; [reflexivity|].
  destruct (string_dec x c) as [->|Hne].
  - rewrite Hp. simpl. destruct (string_dec c c); [now rewrite IH | contradiction].
  - destruct (p x); simpl; [|assumption].
    destruct (string_dec x c); [contradiction | assumption].
Qed.

(** X17.  [create_prices] of seller.py builds one entry per feed record
    with a listed code: the result for a feed in two parts is the two
    results one after the other, and a listed code has as many price
    entries as the feed has records of it. *)
Theorem seller_create_prices_per_record (offer_ids : list string) :
  (forall feed more,
      Seller.create_prices (feed ++ more) offer_ids
      = Seller.create_prices feed offer_ids ++ Seller.create_prices more offer_ids)
  /\ (forall feed c,
        In c offer_ids ->
        count_occ string_dec
          (map Seller.price_offer_id (Seller.create_prices feed offer_ids)) c
        = count_occ string_dec (codes feed) c).
Proof.
  split.
  - intros feed more. rewrite !seller_create_prices_eq. unfold listed.
    now rewrite filter_app, map_app.
  - intros feed c Hc. rewrite seller_create_prices_eq, map_map. simpl.
    fold (map code (listed feed offer_ids)). rewrite listed_codes.
    apply count_occ_filter_member. now apply contains_In.
Qed.

Lemma seller_create_prices_per_record_witness :
  count_occ string_dec
    (map Seller.price_offer_id
       (Seller.create_prices
          [Watch (PyStr "a") (PyStr "1") "7.00";
           Watch (PyStr "a") (PyStr "2") "8.00"] ["a"])) "a"
  = 2%nat.
Proof.
  apply (proj2 (seller_create_prices_per_record ["a"])
           [Watch (PyStr "a") (PyStr "1") "7.00";
            Watch (PyStr "a") (PyStr "2") "8.00"] "a").
  now left.
Defined.

(** ** Quantities given as numbers *)

Lemma str_int_parses (z : Z) :
  DecimalString.NilZero.int_of_string (str (PyInt z)) = Some (Z.to_int z).
Proof.
  simpl. apply DecimalString.NilZero.isi.
  - destruct z as [|p|p]; simpl; try discriminate.
    intros H. inversion H as [Hp].
    now apply (DecimalPos.Unsigned.to_uint_nonnil p).
  - destruct z as [|p|p]; simpl; try discriminate.
    intros H. inversion H as [Hp].
    now apply (DecimalPos.Unsigned.to_uint_nonnil p).
Qed.

Lemma str_int_not_sentinel (z : Z) : str (PyInt z) <> ">10".
Proof.
  intros H. pose proof (str_int_parses z) as Hp. rewrite H in Hp. discriminate Hp.
Qed.

Lemma str_int_one (z : Z) : str (PyInt z) = "1" -> z = 1.
Proof.
  intros H. pose proof (str_int_parses z) as Hp. rewrite H in Hp.
  apply DecimalZ.to_int_inj. simpl in Hp. now inversion Hp.
Qed.

Lemma uint_string_value (d : Decimal.uint) :
  all_digits (DecimalString.NilEmpty.string_of_uint d) = true
  /\ forall acc,
       decimal_value acc (DecimalString.NilEmpty.string_of_uint d)
       = acc * 10 ^ Z.of_N (DecimalPos.Unsigned.usize d)
         + Z.of_N (DecimalPos.Unsigned.of_lu (Decimal.rev d)).
Proof.
  induction d as [|d [IHd IHv]|d [IHd IHv]|d [IHd IHv]|d [IHd IHv]|d [IHd IHv]
                  |d [IHd IHv]|d [IHd IHv]|d [IHd IHv]|d [IHd IHv]|d [IHd IHv]];
    (split; [try reflexivity; simpl; exact IHd|]); intros acc;
    [simpl; lia|..];
    match goal with
    | |- context [Decimal.rev (?D d)] =>
        change (Decimal.rev (D d)) with (Decimal.revapp d (D Decimal.Nil));
        rewrite DecimalPos.Unsigned.of_lu_revapp;
        let v := eval vm_compute in
                   (Z.of_N (DecimalPos.Unsigned.of_lu (D Decimal.Nil))) in
        rewrite N2Z.inj_add, N2Z.inj_mul, N2Z.inj_pow;
        change (Z.of_N (DecimalPos.Unsigned.of_lu (D Decimal.Nil))) with v
    end;
    cbn [DecimalString.NilEmpty.string_of_uint decimal_value
         DecimalPos.Unsigned.usize];
    rewrite IHv, N2Z.inj_succ, Z.pow_succ_r by lia;
    change (Z.of_N 10) with 10;
    match goal with
    | |- context [digit_value ?c] =>
        let v := eval vm_compute in (digit_value c) in
        change (digit_value c) with v
    end;
    ring.
Qed.

Lemma int_of_str_minus_digits (s : string) :
  all_digits s = true -> s <> "" ->
  (String.length s <= int_max_str_digits)%nat ->
  int_of_str (String "-" s) = Ok (- decimal_value 0 s).
Proof.
  intros Hd Hne Hlen. unfold int_of_str, strip. simpl lstrip.
  replace (rstrip (String "-" s)) with (String "-" s).
  - simpl. rewrite int_digits_value; [| assumption | now left].
    rewrite (digit_count_digits s Hd).
    apply Nat.leb_le in Hlen. now rewrite Hlen.
  - simpl. rewrite (rstrip_digits s Hd). destruct s; [now contradiction Hne|].
    reflexivity.
Qed.

Lemma pos_string_value (p : positive) :
  all_digits (DecimalString.NilEmpty.string_of_uint (Pos.to_uint p)) = true
  /\ DecimalString.NilEmpty.string_of_uint (Pos.to_uint p) <> ""
  /\ decimal_value 0 (DecimalString.NilEmpty.string_of_uint (Pos.to_uint p))
     = Z.pos p.
Proof.
  destruct (uint_string_value (Pos.to_uint p)) as [Hd Hv].
  split; [exact Hd|]. split.
  - pose proof (DecimalPos.Unsigned.to_uint_nonnil p) as Hn.
    destruct (Pos.to_uint p); try discriminate. now contradiction Hn.
  - rewrite Hv, <- DecimalPos.Unsigned.of_uint_alt, DecimalPos.Unsigned.of_to.
    simpl. reflexivity.
Qed.

Lemma int_of_str_str (z : Z) :
  (digit_count (str (PyInt z)) <= int_max_str_digits)%nat ->
  int_of_str (str (PyInt z)) = Ok z.
Proof.
  destruct z as [|p|p]; [reflexivity| |];
    destruct (pos_string_value p) as (Hd & Hne & Hv);
    pose proof (DecimalPos.Unsigned.to_uint_nonnil p) as Hn; simpl;
    unfold DecimalString.NilZero.string_of_uint.
  - replace (match Pos.to_uint p with
             | Decimal.Nil => "0"
             | _ => DecimalString.NilEmpty.string_of_uint (Pos.to_uint p)
             end)
      with (DecimalString.NilEmpty.string_of_uint (Pos.to_uint p))
      by (destruct (Pos.to_uint p); try reflexivity; now contradiction Hn).
    intros Hlen. rewrite (digit_count_digits _ Hd) in Hlen.
    rewrite int_of_str_digits by assumption. now rewrite Hv.
  - replace (match Pos.to_uint p with
             | Decimal.Nil => "0"
             | _ => DecimalString.NilEmpty.string_of_uint (Pos.to_uint p)
             end)
      with (DecimalString.NilEmpty.string_of_uint (Pos.to_uint p))
      by (destruct (Pos.to_uint p); try reflexivity; now contradiction Hn).
    intros Hlen. rewrite (digit_count_digits _ Hd) in Hlen.
    rewrite int_of_str_minus_digits by assumption. now rewrite Hv.
Qed.

(** X18.  A quantity cell holding the integer [z] is stocked as [z],
    except the integer 1, which the sentinel "1" turns into 0; and the
    cell holding the decimal text of [z] is stocked like the integer, as
    long as the text has no more than 4300 digits. *)
Theorem stock_of_count_integer (z : Z) :
  stock_of_count (PyInt z) = Ok (if z =? 1 then 0 else z)
  /\ ((digit_count (str (PyInt z)) <= int_max_str_digits)%nat ->
      stock_of_count (PyStr (str (PyInt z))) = stock_of_count (PyInt z)).
Proof.
  assert (Hint : stock_of_count (PyInt z) = Ok (if z =? 1 then 0 else z)).
  { unfold stock_of_count.
    destruct (String.eqb_spec (str (PyInt z)) ">10") as [H|_];
      [now apply str_int_not_sentinel in H|].
    destruct (String.eqb_spec (str (PyInt z)) "1") as [H|H].
    - apply str_int_one in H. now subst z.
    - destruct (Z.eqb_spec z 1) as [->|_]; [now contradiction H | reflexivity]. }
  split; [exact Hint|]. intros Hlen.
  rewrite Hint. unfold stock_of_count.
  change (str (PyStr (str (PyInt z)))) with (str (PyInt z)).
  destruct (String.eqb_spec (str (PyInt z)) ">10") as [H|_];
    [now apply str_int_not_sentinel in H|].
  destruct (String.eqb_spec (str (PyInt z)) "1") as [H|H].
  - apply str_int_one in H. rewrite H. reflexivity.
  - destruct (Z.eqb_spec z 1) as [Hz|_].
    + exfalso. apply H. rewrite Hz. reflexivity.
    + now apply int_of_str_str.
Qed.

Lemma stock_of_count_integer_witness :
  stock_of_count (PyStr (str (PyInt (-2500)))) = stock_of_count (PyInt (-2500)).
Proof.
  apply (proj2 (stock_of_count_integer (-2500))).
  apply Nat.leb_le. vm_compute. reflexivity.
Defined.

(** ** The shape of the market stock entries *)

Lemma stocks_loop_Forall {E : Type} (entry : string -> Z -> E) (P : E -> Prop)
    (feed : list watch) :
  (forall c z, P (entry c z)) ->
  forall acc ids stocks left,
    Forall P acc ->
    stocks_loop entry feed acc ids = (Ok stocks, left) ->
    Forall P stocks.
Proof.
  intros HP. induction feed as [|w rest IH]; intros acc ids stocks left Hacc H;
    simpl in H.
  - now inversion H; subst.
  - destruct (contains (code w) ids); [|now apply (IH acc ids stocks left)].
    destruct (stock_of_count (Kolichestvo w)) as [z|e]; [|discriminate].
    destruct (list_remove (code w) ids) as [ids'|e]; [|discriminate].
    apply (IH _ _ _ _ ltac:(apply Forall_app; split;
                            [exact Hacc | constructor; [apply HP | constructor]]) H).
Qed.

(** X19.  Every entry that [create_stocks] of market.py returns carries
    the warehouse id of the call and exactly one item, of type "FIT" and
    stamped with the date of the call; so [items[0]], which
    [upload_stocks] reads, always exists. *)
Theorem market_stock_entries_shape (date : string) (feed : list watch)
    (offer_ids : list string) (warehouse_id : string)
    (stocks : list Market.stock_entry) (left : list string) :
  Market.create_stocks date feed offer_ids warehouse_id = (Ok stocks, left) ->
  Forall (fun entry =>
            Market.warehouseId entry = warehouse_id
            /\ exists z, Market.items entry = [Market.Item z "FIT" date])
         stocks.
Proof.
  intros H. unfold Market.create_stocks in H. rewrite market_loop_eq in H.
  destruct (stocks_loop (market_entry warehouse_id date) feed [] offer_ids)
    as [[s|e] l] eqn:Hl; [|discriminate].
  inversion H; subst; clear H. apply Forall_app. split.
  - apply (stocks_loop_Forall (market_entry warehouse_id date) _ feed)
      with (acc := []) (ids := offer_ids) (left := left);
      [| constructor | exact Hl].
    intros c z. split; [reflexivity | now exists z].
  - apply Forall_forall. intros entry Hin. apply in_map_iff in Hin.
    destruct Hin as (c & <- & _). split; [reflexivity | now exists 0].
Qed.

Lemma market_stock_entries_shape_witness :
  Forall (fun entry =>
            Market.warehouseId entry = "w1"
            /\ exists z, Market.items entry = [Market.Item z "FIT" "d"])
         [Market.StockEntry "a" "w1" [Market.Item 100 "FIT" "d"];
          Market.StockEntry "b" "w1" [Market.Item 0 "FIT" "d"]].
Proof.
  apply (market_stock_entries_shape "d"
           [Watch (PyStr "a") (PyStr ">10") "1.00"] ["a"; "b"] "w1"
           [Market.StockEntry "a" "w1" [Market.Item 100 "FIT" "d"];
            Market.StockEntry "b" "w1" [Market.Item 0 "FIT" "d"]]
           ["b"]).
  reflexivity.
Defined.

(** ** How many chunks, how many requests *)

Lemma range_len_ceil (len : nat) (n : Z) :
  0 < n ->
  Z.of_nat (range_len 0 (Z.of_nat len) n) = (Z.of_nat len + n - 1) / n.
Proof.
  intros Hn. unfold range_len.
  destruct (Z.ltb_spec 0 n) as [_|?]; [|lia].
  destruct (Z.ltb_spec 0 (Z.of_nat len)) as [Hpos|Hz].
  - replace (Z.of_nat len + n - 1) with (Z.of_nat len - 1 + 1 * n) by lia.
    rewrite Z.div_add by lia.
    replace (Z.of_nat len - 0 - 1) with (Z.of_nat len - 1) by lia.
    pose proof (Z.div_pos (Z.of_nat len - 1) n ltac:(lia) Hn). lia.
  - replace (Z.of_nat len) with 0 by lia. simpl.
    rewrite Z.div_small by lia. reflexivity.
Qed.

(** X20.  For a positive chunk size [divide] yields the number of items
    divided by the chunk size, rounded up, many chunks; a non-empty list
    no longer than the chunk size comes back as one chunk, itself. *)
Theorem divide_chunk_count (A : Type) (lst : list A) (n : Z) :
  0 < n ->
  exists chunks,
    divide lst n = Ok chunks
    /\ Z.of_nat (List.length chunks) = (Z.of_nat (List.length lst) + n - 1) / n
    /\ (lst <> [] -> Z.of_nat (List.length lst) <= n -> chunks = [lst]).
Proof.
  intros Hn. eexists. split; [now apply divide_pieces|]. split.
  - unfold pieces. rewrite length_map, length_seq. now apply range_len_ceil.
  - intros Hne Hle.
    assert (Hone : range_len 0 (Z.of_nat (List.length lst)) n = 1%nat).
    { apply Nat2Z.inj. rewrite range_len_ceil by assumption.
      assert (0 < Z.of_nat (List.length lst)).
      { destruct lst; [now contradiction Hne | simpl; lia]. }
      replace (Z.of_nat (List.length lst) + n - 1)
        with (Z.of_nat (List.length lst) - 1 + 1 * n) by lia.
      rewrite Z.div_add, Z.div_small by lia. reflexivity. }
    rewrite Hone. unfold pieces. simpl. rewrite firstn_all2 by lia. reflexivity.
Qed.

Lemma divide_chunk_count_witness :
  exists chunks,
    divide ["a"; "b"; "c"] 5 = Ok chunks
    /\ Z.of_nat (List.length chunks) = (3 + 5 - 1) / 5
    /\ (["a"; "b"; "c"] <> [] -> 3 <= 5 -> chunks = [["a"; "b"; "c"]]).
Proof.
  apply (divide_chunk_count string ["a"; "b"; "c"] 5). lia.
Defined.

(** X21.  With a server that answers, [upload_stocks] issues no request
    when [create_stocks] raises, and when [create_stocks] returns it
    issues as many requests as the number of offer ids it was given,
    divided by the chunk size (100 in seller.py, 2000 in market.py) and
    rounded up. *)
Theorem upload_stocks_request_count :
  (forall http feed offer_ids,
      always_ok http ->
      (forall stocks left,
          Seller.create_stocks feed offer_ids = (Ok stocks, left) ->
          Z.of_nat (List.length (snd (Seller.upload_stocks http feed offer_ids [])))
          = (Z.of_nat (List.length offer_ids) + 99) / 100)
      /\ (forall e left,
            Seller.create_stocks feed offer_ids = (Raise e, left) ->
            snd (Seller.upload_stocks http feed offer_ids []) = []))
  /\ (forall http date feed offer_ids warehouse_id,
        always_ok http ->
        (forall stocks left,
            Market.create_stocks date feed offer_ids warehouse_id
            = (Ok stocks, left) ->
            Z.of_nat (List.length
                        (snd (Market.upload_stocks http date feed offer_ids
                                warehouse_id [])))
            = (Z.of_nat (List.length offer_ids) + 1999) / 2000)
        /\ (forall e left,
              Market.create_stocks date feed offer_ids warehouse_id
              = (Raise e, left) ->
              snd (Market.upload_stocks http date feed offer_ids warehouse_id [])
              = [])).
Proof.
  split.
  - intros http feed ids Hok. split.
    + intros stocks left Hc.
      rewrite (seller_upload_stocks_run http Hok feed ids stocks left Hc).
      unfold pieces. rewrite !length_map, length_seq, range_len_ceil by lia.
      destruct (proj1 (create_stocks_rearranged feed ids) stocks left Hc)
        as [_ Hlen].
      rewrite Hlen. f_equal. lia.
    + intros e left Hc. unfold Seller.upload_stocks. now rewrite Hc.
  - intros http date feed ids wh Hok. split.
    + intros stocks left Hc.
      rewrite (market_upload_stocks_run http Hok date feed ids wh stocks left Hc).
      unfold pieces. rewrite !length_map, length_seq, range_len_ceil by lia.
      destruct (proj2 (create_stocks_rearranged feed ids) date wh stocks left Hc)
        as [_ Hlen].
      rewrite Hlen. f_equal. lia.
    + intros e left Hc. unfold Market.upload_stocks. now rewrite Hc.
Qed.

Lemma upload_stocks_request_count_witness :
  Z.of_nat (List.length
              (snd (Seller.upload_stocks (fun _ _ => None) [] sample_offer_ids [])))
  = (Z.of_nat (List.length sample_offer_ids) + 99) / 100.
Proof.
  refine (proj1 (proj1 upload_stocks_request_count (fun _ _ => None) []
                   sample_offer_ids _)
            (map (fun c => Seller.StockEntry c 0) sample_offer_ids)
            sample_offer_ids _).
  - intros sent r. reflexivity.
  - vm_compute. reflexivity.
Defined.

(** ** The synchronisation of market.py *)

Lemma is_stock_call_chunks (campaign : string)
    (chunks : list (list Market.stock_entry)) :
  Forall (fun r => is_stock_call r = true)
         (map (fun c => (campaign, Market.update_stocks c)) chunks).
Proof. apply Forall_forall. intros r Hr. apply in_map_iff in Hr.
  destruct Hr as (c & <- & _). reflexivity.
Qed.

(** X22.  [main] of market.py sends stock updates only, first for the
    FBS campaign and then for the DBS campaign: the price upload it calls
    is a coroutine that is never awaited.  With a server that answers and
    two stock lists built, the requests are the chunks of 2000 FBS
    entries under the FBS campaign followed by the chunks of 2000 DBS
    entries under the DBS campaign. *)
Theorem market_main_requests (feed : list watch)
    (fbs dbs warehouse_fbs warehouse_dbs : string)
    (ids_fbs ids_dbs : list string) (date_fbs date_dbs : string) :
  (forall http,
      Forall (fun r => is_stock_call r = true)
             (Market.main http feed fbs dbs warehouse_fbs warehouse_dbs
                ids_fbs ids_dbs date_fbs date_dbs))
  /\ (forall http stocks_fbs left_fbs stocks_dbs left_dbs,
        always_ok http ->
        Market.create_stocks date_fbs feed ids_fbs warehouse_fbs
        = (Ok stocks_fbs, left_fbs) ->
        Market.create_stocks date_dbs feed ids_dbs warehouse_dbs
        = (Ok stocks_dbs, left_dbs) ->
        exists chunks_fbs chunks_dbs,
          Market.main http feed fbs dbs warehouse_fbs warehouse_dbs
            ids_fbs ids_dbs date_fbs date_dbs
          = map (fun c => (fbs, Market.update_stocks c)) chunks_fbs
            ++ map (fun c => (dbs, Market.update_stocks c)) chunks_dbs
          /\ batches_of 2000 stocks_fbs chunks_fbs
          /\ batches_of 2000 stocks_dbs chunks_dbs).
Proof.
  split.
  - intros http. unfold Market.main, Market.main_try.
    destruct (Market.create_stocks date_fbs feed ids_fbs warehouse_fbs)
      as [[s1|e1] l1]; run_io; [|constructor].
    rewrite (divide_pieces s1 2000) by lia. cbv beta iota.
    set (chunks1 := pieces (Z.to_nat 2000) s1
                      (range_len 0 (Z.of_nat (List.length s1)) 2000)).
    destruct (for_each_request_prefix http
                (fun c => (fbs, Market.update_stocks c)) chunks1 []) as [k1 Hk1].
    destruct (for_each chunks1
                (fun some_stock =>
                   request http (fbs, Market.update_stocks some_stock)) [])
      as [[[]|e] sent] eqn:Hrun; simpl in Hk1; subst sent;
      [|apply is_stock_call_chunks].
    destruct (Market.create_stocks date_dbs feed ids_dbs warehouse_dbs)
      as [[s2|e2] l2]; cbv beta iota; [|apply is_stock_call_chunks].
    rewrite (divide_pieces s2 2000) by lia. cbv beta iota.
    set (chunks2 := pieces (Z.to_nat 2000) s2
                      (range_len 0 (Z.of_nat (List.length s2)) 2000)).
    destruct (for_each_request_prefix http
                (fun c => (dbs, Market.update_stocks c)) chunks2
                (map (fun c => (fbs, Market.update_stocks c)) (firstn k1 chunks1)))
      as [k2 Hk2].
    refine (eq_ind_r (fun l => Forall _ l) _ Hk2). apply Forall_app. split; apply is_stock_call_chunks.
  - intros http s1 l1 s2 l2 Hok H1 H2. eexists. eexists. split; [|split].
    + unfold Market.main, Market.main_try. rewrite H1. run_io.
      rewrite (divide_pieces s1 2000) by lia. cbv beta iota.
      rewrite (for_each_request_ok http
                 (fun c => (fbs, Market.update_stocks c)) _ Hok).
      cbv beta iota. rewrite H2. cbv beta iota.
      rewrite (divide_pieces s2 2000) by lia. cbv beta iota.
      rewrite (for_each_request_ok http
                 (fun c => (dbs, Market.update_stocks c)) _ Hok).
      reflexivity.
    + apply (pieces_batches s1 2000). lia.
    + apply (pieces_batches s2 2000). lia.
Qed.

Lemma market_main_requests_witness :
  exists chunks_fbs chunks_dbs,
    Market.main (fun _ _ => None)
      [Watch (PyStr "a") (PyStr ">10") "5.00"] "fbs" "dbs" "w1" "w2"
      ["a"] ["a"; "b"] "d1" "d2"
    = map (fun c => ("fbs", Market.update_stocks c)) chunks_fbs
      ++ map (fun c => ("dbs", Market.update_stocks c)) chunks_dbs
    /\ batches_of 2000 [Market.StockEntry "a" "w1" [Market.Item 100 "FIT" "d1"]]
         chunks_fbs
    /\ batches_of 2000
         [Market.StockEntry "a" "w2" [Market.Item 100 "FIT" "d2"];
          Market.StockEntry "b" "w2" [Market.Item 0 "FIT" "d2"]]
         chunks_dbs.
Proof.
  apply (proj2 (market_main_requests
                  [Watch (PyStr "a") (PyStr ">10") "5.00"] "fbs" "dbs" "w1" "w2"
                  ["a"] ["a"; "b"] "d1" "d2")
           (fun _ _ => None)
           [Market.StockEntry "a" "w1" [Market.Item 100 "FIT" "d1"]] []
           [Market.StockEntry "a" "w2" [Market.Item 100 "FIT" "d2"];
            Market.StockEntry "b" "w2" [Market.Item 0 "FIT" "d2"]] ["b"]).
  - intros sent r. reflexivity.
  - reflexivity.
  - reflexivity.
Defined.

(** ** Prices and stocks of one feed *)

Lemma first_occurrences_NoDup_id (l : list string) :
  NoDup l -> first_occurrences l = l.
Proof.
  induction l as [|x l IH]; simpl; intros H; [reflexivity|].
  inversion H as [|? ? Hx Hl]; subst. rewrite (IH Hl). f_equal.
  apply filter_all. intros y Hy. apply negb_true_iff, String.eqb_neq.
  intros ->. contradiction.
Qed.

(** X23.  When no code occurs twice in the feed, the offers priced by
    [create_prices] of seller.py are exactly the leading entries of the
    stock list that [create_stocks] builds from the same inputs, in the
    same order, and every stock entry after them has stock 0. *)
Theorem seller_prices_match_stocks (feed : list watch) (offer_ids : list string) :
  NoDup (codes feed) -> NoDup offer_ids -> quantities_recognised feed offer_ids ->
  exists stocks left,
    Seller.create_stocks feed offer_ids = (Ok stocks, left)
    /\ map Seller.offer_id
         (firstn (List.length (Seller.create_prices feed offer_ids)) stocks)
       = map Seller.price_offer_id (Seller.create_prices feed offer_ids)
    /\ Forall (fun entry => Seller.stock entry = 0)
              (skipn (List.length (Seller.create_prices feed offer_ids)) stocks).
Proof.
  intros Hf Hnd Hq. eexists. eexists.
  split; [now apply seller_create_stocks_ok|].
  assert (Hm : matched_codes feed offer_ids
               = map Seller.price_offer_id (Seller.create_prices feed offer_ids)).
  { unfold matched_codes.
    rewrite first_occurrences_NoDup_id by now apply NoDup_filter.
    rewrite seller_create_prices_eq, map_map. simpl.
    symmetry. apply listed_codes. }
  assert (Hlen : List.length (Seller.create_prices feed offer_ids)
                 = List.length
                     (map (fun c => Seller.StockEntry c (matched_stock feed c))
                          (matched_codes feed offer_ids))).
  { rewrite length_map, Hm, length_map. reflexivity. }
  rewrite Hlen. split.
  - rewrite firstn_app, Nat.sub_diag, firstn_all. simpl. rewrite app_nil_r.
    rewrite map_map. simpl. now rewrite map_id.
  - rewrite skipn_app, Nat.sub_diag, skipn_all. simpl.
    apply Forall_forall. intros entry Hin. apply in_map_iff in Hin.
    now destruct Hin as (c & <- & _).
Qed.

Lemma seller_prices_match_stocks_witness :
  exists stocks left,
    Seller.create_stocks
      [Watch (PyStr "2") (PyStr "7") "20.00"; Watch (PyStr "9") (PyStr "1") "9.00";
       Watch (PyStr "1") (PyStr ">10") "10.00"]
      ["1"; "2"; "3"]
    = (Ok stocks, left)
    /\ map Seller.offer_id (firstn 2 stocks) = ["2"; "1"]
    /\ Forall (fun entry => Seller.stock entry = 0) (skipn 2 stocks).
Proof.
  apply (seller_prices_match_stocks
           [Watch (PyStr "2") (PyStr "7") "20.00"; Watch (PyStr "9") (PyStr "1") "9.00";
            Watch (PyStr "1") (PyStr ">10") "10.00"]
           ["1"; "2"; "3"]).
  - apply nodupb_NoDup. reflexivity.
  - apply nodupb_NoDup. reflexivity.
  - apply quantities_recognisedb_ok. reflexivity.
Defined.
